(** * notes_database/init_db.py: the database initializer

    A shallow embedding of the initialization script and of the part of
    Python's [sqlite3] and [os] modules it calls, followed by the
    properties of the specification.

    - [Module Sqlite] models the engine: the tables of the file, a
      connection with its open transaction, the statements the script
      issues and the statements a migration file may hold.
    - [Module Py] models the process: the files of the working directory,
      the event trace, and a state monad with exceptions.
    - The script itself is [main], written statement by statement after
      [init_db.py]; [run] executes it in a given working directory.

    What the model leaves out: a failure of the first [os.makedirs], of
    [sqlite3.connect], of [os.getcwd] or of the disk under the database;
    a migration file that is there but cannot be read as text; migration
    statements other than those of [Sqlite.stmt] (table and index
    definitions and transaction control: no INSERT, DELETE, DROP or
    ALTER); the types and constraints of the columns of migration
    tables, foreign keys among them; and databases in which a table
    named app_info or users has other columns than the script declares,
    or which hold views or triggers. *)

From stdpp Require Import base option list strings gmap pretty.

(* ===================================================================== *)
(** ** The engine *)
(* ===================================================================== *)

Module Sqlite.

(** A row of [app_info]:
    [id INTEGER PRIMARY KEY AUTOINCREMENT, key TEXT UNIQUE NOT NULL,
     value TEXT, created_at TIMESTAMP DEFAULT CURRENT_TIMESTAMP]. *)
Record app_info_row := AppInfoRow {
  ai_id : Z;
  ai_key : string;
  ai_value : option string;
  ai_created_at : string;
}.

#[global] Instance app_info_row_eq_dec : EqDecision app_info_row.
Proof. solve_decision. Defined.

(** A row of [users]:
    [id INTEGER PRIMARY KEY AUTOINCREMENT, username TEXT UNIQUE NOT NULL,
     email TEXT UNIQUE NOT NULL, created_at TIMESTAMP DEFAULT ...]. *)
Record users_row := UsersRow {
  u_id : Z;
  u_username : string;
  u_email : string;
  u_created_at : string;
}.

(** The contents of a database file. The two base tables, when present,
    have the columns the script declares; [None] is an absent table.
    [sqlite_sequence] is the system table SQLite keeps for AUTOINCREMENT
    (table name to largest rowid ever used). [tables] are the tables
    under other names, as a migration creates them (name to column
    names), [indexes] the indexes (name to indexed table). *)
Record database := Database {
  app_info : option (list app_info_row);
  users : option (list users_row);
  sqlite_sequence : option (gmap string Z);
  tables : gmap string (list string);
  indexes : gmap string string;
}.

Definition empty_database : database :=
  Database None None None ∅ ∅.

(** The name of a base table in the catalog, when the table is there. *)
Definition name_if {A} (t : option A) (name : string) : list string :=
  match t with Some _ => [name] | None => [] end.

(** [SELECT name FROM sqlite_master WHERE type='table']: the names of
    the tables, the base tables first (the order of the rows of
    [sqlite_master], which the script does not look at, is not
    modelled). *)
Definition table_names (db : database) : list string :=
  name_if (app_info db) "app_info" ++
  name_if (users db) "users" ++
  name_if (sqlite_sequence db) "sqlite_sequence" ++
  (map_to_list (tables db)).*1.

(** [SELECT name FROM sqlite_master WHERE type='index'], but for the
    automatic indexes of UNIQUE columns. *)
Definition index_names (db : database) : list string :=
  (map_to_list (indexes db)).*1.

Definition table_set (db : database) : gset string :=
  list_to_set (table_names db).

(** ASCII lower case, as LIKE and the catalog compare. *)
Definition ascii_lower (c : Ascii.ascii) : Ascii.ascii :=
  let n := Ascii.nat_of_ascii c in
  if (65 <=? n)%nat && (n <=? 90)%nat then Ascii.ascii_of_nat (n + 32) else c.

Fixpoint string_lower (s : string) : string :=
  match s with
  | EmptyString => EmptyString
  | String c r => String (ascii_lower c) (string_lower r)
  end.

(** SQLite looks the names of tables and indexes up without regard to
    case: the name among [names] that [name] designates, as it is
    stored. *)
Definition find_name (name : string) (names : list string) : option string :=
  head (filter (λ n, string_lower n = string_lower name) names).

(** [name LIKE 'sqlite_%']: the letters of "sqlite" in either case, then
    one character whatever it is (the [_] of the pattern), then anything. *)
Definition like_sqlite_ (name : string) : bool :=
  bool_decide (string_lower (String.substring 0 6 name) = "sqlite")
  && (7 <=? String.length name)%nat.

(** [SELECT COUNT( * ) FROM sqlite_master
     WHERE type='table' AND name NOT LIKE 'sqlite_%']. *)
Definition count_user_tables (db : database) : nat :=
  length (filter (λ n, like_sqlite_ n = false) (table_names db)).

(** *** The statements of the script *)

(** The database once an empty [app_info] is made: the first table with
    an AUTOINCREMENT column also brings [sqlite_sequence] into being. *)
Definition with_app_info (db : database) : database :=
  Database (Some []) (users db)
           (Some (default ∅ (sqlite_sequence db))) (tables db) (indexes db).

Definition with_users (db : database) : database :=
  Database (app_info db) (Some [])
           (Some (default ∅ (sqlite_sequence db))) (tables db) (indexes db).

(** [CREATE TABLE IF NOT EXISTS app_info (...)]: nothing to do when the
    table is there; otherwise the name must not be that of an index.
    The result is [inr message] when the statement fails. *)
Definition create_app_info (db : database) : database + string :=
  match app_info db with
  | Some _ => inl db
  | None =>
      match find_name "app_info" (index_names db) with
      | Some _ => inr "there is already an index named app_info"
      | None => inl (with_app_info db)
      end
  end.

(** [CREATE TABLE IF NOT EXISTS users (...)]. *)
Definition create_users (db : database) : database + string :=
  match users db with
  | Some _ => inl db
  | None =>
      match find_name "users" (index_names db) with
      | Some _ => inr "there is already an index named users"
      | None => inl (with_users db)
      end
  end.

(** The largest rowid SQLite hands out, [2^63 - 1], and the message of
    SQLITE_FULL, the error of an AUTOINCREMENT table that has used it. *)
Definition MAX_ROWID : Z := 9223372036854775807.
Definition SQLITE_FULL : string := "database or disk is full".

(** The largest rowid among [rows]; 0 when there is no row. *)
Fixpoint max_id (rows : list app_info_row) : Z :=
  match rows with
  | [] => 0%Z
  | r :: rest =>
      match rest with
      | [] => ai_id r
      | _ => Z.max (ai_id r) (max_id rest)
      end
  end.

(** The largest rowid the table holds or, by [sqlite_sequence], has ever
    held. *)
Definition last_id (db : database) (rows : list app_info_row) : Z :=
  Z.max (default 0%Z (default ∅ (sqlite_sequence db) !! "app_info")) (max_id rows).

(** The rowid AUTOINCREMENT hands out: one more than [last_id]. *)
Definition next_id (db : database) (rows : list app_info_row) : Z :=
  (last_id db rows + 1)%Z.

(** The table once the row [(key, value)] is put in: the REPLACE
    conflict resolution deletes the rows that clash on the UNIQUE column
    [key], the new row comes last under the rowid [next_id], which
    [sqlite_sequence] records. *)
Definition put_row (key value now : string) (db : database)
    (rows : list app_info_row) : database :=
  let id := next_id db rows in
  Database
    (Some (filter (λ r, ai_key r ≠ key) rows
           ++ [AppInfoRow id key (Some value) now]))
    (users db)
    (Some (<["app_info" := id]> (default ∅ (sqlite_sequence db))))
    (tables db) (indexes db).

(** [INSERT OR REPLACE INTO app_info (key, value) VALUES (?, ?)]. An
    AUTOINCREMENT table whose largest rowid, held or ever held, is
    [MAX_ROWID] takes no new row: the statement fails with SQLITE_FULL.
    The result is [inr message] when the statement fails. *)
Definition insert_or_replace (key value now : string) (db : database)
  : database + string :=
  match app_info db with
  | None => inr "no such table: app_info"
  | Some rows =>
      if bool_decide (MAX_ROWID ≤ last_id db rows)%Z then inr SQLITE_FULL
      else inl (put_row key value now db rows)
  end.

(** [SELECT COUNT( * ) FROM app_info]. *)
Definition count_app_info (db : database) : nat + string :=
  match app_info db with
  | Some rows => inl (length rows)
  | None => inr "no such table: app_info"
  end.

(** *** The statements of a migration file

    The migration file is text handed to the engine; it is modelled as
    the statements the engine reads from it. These are the statements of
    a schema migration: table definitions with their column names, index
    definitions (on columns the table has) and transaction control.
    [Unparsable message] is text the engine rejects whatever the
    database holds, with the message it gives, a syntax error for
    instance. *)
Inductive stmt :=
| BEGIN
| COMMIT
| CREATE_TABLE (if_not_exists : bool) (name : string) (columns : list string)
| CREATE_INDEX (if_not_exists : bool) (name : string) (table : string)
| Unparsable (message : string).

#[global] Instance stmt_eq_dec : EqDecision stmt.
Proof. solve_decision. Defined.

(** A name SQLite keeps for itself: it begins with [sqlite_], in
    either case. *)
Definition reserved_name (name : string) : bool :=
  bool_decide (String.substring 0 7 (string_lower name) = "sqlite_").

(** The message of a syntax error at [token]:
    near [token] between double quotes, then ": syntax error". *)
Definition syntax_error_near (token : string) : string :=
  "near " +:+ String (Ascii.ascii_of_nat 34) token
          +:+ String (Ascii.ascii_of_nat 34) ": syntax error".

(** The first column name that is written a second time, without regard
    to case. *)
Fixpoint duplicate_column (seen cols : list string) : option string :=
  match cols with
  | [] => None
  | c :: rest =>
      if bool_decide (string_lower c ∈ seen) then Some c
      else duplicate_column (string_lower c :: seen) rest
  end.

(** [CREATE TABLE [IF NOT EXISTS] name (cols)], with the checks in the
    order SQLite makes them: the text is parsed (an empty column list is
    a syntax error), the name must not be reserved, a table of that name
    ends the statement (in error without IF NOT EXISTS), an index of
    that name is an error, and so is a column named twice. The result is
    [inr message] on an error. *)
Definition create_table (ine : bool) (name : string) (cols : list string)
    (db : database) : database + string :=
  match cols with
  | [] => inr (syntax_error_near ")")
  | _ =>
      if reserved_name name then
        inr ("object name reserved for internal use: " +:+ name)
      else
        match find_name name (table_names db) with
        | Some _ =>
            if ine then inl db else inr ("table " +:+ name +:+ " already exists")
        | None =>
            match find_name name (index_names db) with
            | Some _ => inr ("there is already an index named " +:+ name)
            | None =>
                match duplicate_column [] cols with
                | Some c => inr ("duplicate column name: " +:+ c)
                | None =>
                    inl (Database (app_info db) (users db) (sqlite_sequence db)
                                  (<[name := cols]> (tables db)) (indexes db))
                end
            end
        end
  end.

(** [CREATE INDEX [IF NOT EXISTS] name ON table (...)], with the checks
    in the order SQLite makes them: the table must exist and be no
    system table, the name must be neither reserved nor that of a table,
    and an index of that name ends the statement (in error without IF
    NOT EXISTS). The index is recorded under the stored name of its
    table. *)
Definition create_index (ine : bool) (name table : string)
    (db : database) : database + string :=
  match find_name table (table_names db) with
  | None => inr ("no such table: main." +:+ table)
  | Some stored =>
      if reserved_name stored then
        inr ("table " +:+ stored +:+ " may not be indexed")
      else if reserved_name name then
        inr ("object name reserved for internal use: " +:+ name)
      else
        match find_name name (table_names db) with
        | Some _ => inr ("there is already a table named " +:+ name)
        | None =>
            match find_name name (index_names db) with
            | Some _ =>
                if ine then inl db else inr ("index " +:+ name +:+ " already exists")
            | None =>
                inl (Database (app_info db) (users db) (sqlite_sequence db)
                              (tables db) (<[name := stored]> (indexes db)))
            end
        end
  end.

(** *** Connections and transactions

    A connection works on the file and, inside a transaction, on its own
    working copy, which COMMIT writes to the file and closing discards.
    The script sets [isolation_level = None]: the driver opens no
    transaction by itself, so outside BEGIN ... COMMIT every statement is
    written to the file at once. *)
Record connection := Connection {
  pending : option database;
  foreign_keys : bool;
}.

(** The engine at work: the file and the connection on it. *)
Definition engine : Type := database * connection.

Definition view (e : engine) : database := default e.1 (pending e.2).

Definition store (db : database) (e : engine) : engine :=
  match pending e.2 with
  | Some _ => (e.1, Connection (Some db) (foreign_keys e.2))
  | None => (db, e.2)
  end.

Definition update (f : database → database + string) (e : engine)
  : engine + string :=
  match f (view e) with
  | inl db => inl (store db e)
  | inr msg => inr msg
  end.

Definition begin (e : engine) : engine + string :=
  match pending e.2 with
  | Some _ => inr "cannot start a transaction within a transaction"
  | None => inl (e.1, Connection (Some e.1) (foreign_keys e.2))
  end.

Definition commit (e : engine) : engine + string :=
  match pending e.2 with
  | Some db => inl (db, Connection None (foreign_keys e.2))
  | None => inr "cannot commit - no transaction is active"
  end.

(** The open transaction, if any, is given up. *)
Definition rollback (e : engine) : engine :=
  (e.1, Connection None (foreign_keys e.2)).

(** [PRAGMA foreign_keys = ON] is a no-op inside a transaction. *)
Definition pragma_foreign_keys_on (e : engine) : engine :=
  match pending e.2 with
  | Some _ => e
  | None => (e.1, Connection None true)
  end.

Definition exec_stmt (st : stmt) (e : engine) : engine + string :=
  match st with
  | BEGIN => begin e
  | COMMIT => commit e
  | CREATE_TABLE ine name cols => update (create_table ine name cols) e
  | CREATE_INDEX ine name table => update (create_index ine name table) e
  | Unparsable message => inr message
  end.

(** The statements of a script one after the other, up to the first that
    fails; what the earlier ones did stays done. The result is the
    engine as the script leaves it and the message of the error, if
    any. *)
Fixpoint exec_script (script : list stmt) (e : engine) : engine * option string :=
  match script with
  | [] => (e, None)
  | st :: rest =>
      match exec_stmt st e with
      | inl e' => exec_script rest e'
      | inr msg => (e, Some msg)
      end
  end.

(** [Connection.executescript]: "If there is a pending transaction, an
    implicit COMMIT statement is executed first. No other implicit
    transaction control is performed" (Python's sqlite3 documentation). *)
Definition executescript (script : list stmt) (e : engine) : engine * option string :=
  exec_script script
    match pending e.2 with
    | Some db => (db, Connection None (foreign_keys e.2))
    | None => e
    end.

(** The statements the script passes to [cursor.execute]. *)
Inductive sql :=
| PRAGMA_foreign_keys_ON
| SQL_BEGIN
| CREATE_app_info
| CREATE_users
| INSERT_OR_REPLACE (key value : string)
| SELECT_notes
| SQL_COMMIT
| SELECT_COUNT_tables
| SELECT_COUNT_app_info.

#[global] Instance sql_eq_dec : EqDecision sql.
Proof. solve_decision. Defined.

(** A statement that fails leaves the engine as it was. *)
Definition result (e : engine) (r : engine + string) : engine * option string :=
  match r with
  | inl e' => (e', None)
  | inr msg => (e, Some msg)
  end.

(** What a statement does to the engine: the engine after it and the
    message of the error, if it fails. On SQLITE_FULL the engine rolls
    the open transaction back. The SELECTs change nothing, their answers
    are [select_notes], [count_user_tables] and [count_app_info] on the
    connection's [view]. *)
Definition execute (q : sql) (now : string) (e : engine) : engine * option string :=
  match q with
  | PRAGMA_foreign_keys_ON => (pragma_foreign_keys_on e, None)
  | SQL_BEGIN => result e (begin e)
  | CREATE_app_info => result e (update create_app_info e)
  | CREATE_users => result e (update create_users e)
  | INSERT_OR_REPLACE key value =>
      match update (insert_or_replace key value now) e with
      | inl e' => (e', None)
      | inr msg =>
          (if bool_decide (msg = SQLITE_FULL) then rollback e else e, Some msg)
      end
  | SQL_COMMIT => result e (commit e)
  | SELECT_notes => (e, None)
  | SELECT_COUNT_tables => (e, None)
  | SELECT_COUNT_app_info =>
      (e, match count_app_info (view e) with inl _ => None | inr msg => Some msg end)
  end.

(** [SELECT name FROM sqlite_master WHERE type='table' AND name='notes'],
    then [fetchone()]; the [=] of this query compares the stored name
    byte by byte. *)
Definition select_notes (db : database) : option string :=
  head (filter (λ n, n = "notes") (table_names db)).

End Sqlite.

(* ===================================================================== *)
(** ** The process *)
(* ===================================================================== *)

Module Py.
Import Sqlite.

(** The exceptions the script meets. [OperationalError] is
    [sqlite3.OperationalError] (a [sqlite3.Error]); [OSError] stands for
    the errors of the file system (permission denied and the like). *)
Inductive exception :=
| FileNotFoundError (msg : string)
| OperationalError (msg : string)
| OSError (msg : string).

(** [str(e)]. *)
Definition str (e : exception) : string :=
  match e with
  | FileNotFoundError msg | OperationalError msg | OSError msg => msg
  end.

(** The working directory the script runs in. [db_file] is [myapp.db],
    [migration_file] is [migrations/001_create_notes.sql], each [None]
    when absent. The three [deny_] fields are the answers of the file
    system to the auxiliary outputs: [Some message] when it refuses. *)
Record world := World {
  cwd : string;
  CURRENT_TIMESTAMP : string;
  migrations_dir : bool;
  db_file : option database;
  migration_file : option (list stmt);
  db_connection_txt : option string;
  db_visualizer : bool;
  sqlite_env : option string;
  deny_db_connection_txt : option string;
  deny_db_visualizer : option string;
  deny_sqlite_env : option string;
}.

Definition set_migrations_dir (b : bool) (w : world) : world :=
  World (cwd w) (CURRENT_TIMESTAMP w) b (db_file w) (migration_file w)
        (db_connection_txt w) (db_visualizer w) (sqlite_env w)
        (deny_db_connection_txt w) (deny_db_visualizer w) (deny_sqlite_env w).

Definition set_db_file (f : option database) (w : world) : world :=
  World (cwd w) (CURRENT_TIMESTAMP w) (migrations_dir w) f (migration_file w)
        (db_connection_txt w) (db_visualizer w) (sqlite_env w)
        (deny_db_connection_txt w) (deny_db_visualizer w) (deny_sqlite_env w).

Definition set_migration_file (m : option (list stmt)) (w : world) : world :=
  World (cwd w) (CURRENT_TIMESTAMP w) (migrations_dir w) (db_file w) m
        (db_connection_txt w) (db_visualizer w) (sqlite_env w)
        (deny_db_connection_txt w) (deny_db_visualizer w) (deny_sqlite_env w).

Definition set_db_connection_txt (t : option string) (w : world) : world :=
  World (cwd w) (CURRENT_TIMESTAMP w) (migrations_dir w) (db_file w)
        (migration_file w) t (db_visualizer w) (sqlite_env w)
        (deny_db_connection_txt w) (deny_db_visualizer w) (deny_sqlite_env w).

Definition set_db_visualizer (b : bool) (w : world) : world :=
  World (cwd w) (CURRENT_TIMESTAMP w) (migrations_dir w) (db_file w)
        (migration_file w) (db_connection_txt w) b (sqlite_env w)
        (deny_db_connection_txt w) (deny_db_visualizer w) (deny_sqlite_env w).

Definition set_sqlite_env (t : option string) (w : world) : world :=
  World (cwd w) (CURRENT_TIMESTAMP w) (migrations_dir w) (db_file w)
        (migration_file w) (db_connection_txt w) (db_visualizer w) t
        (deny_db_connection_txt w) (deny_db_visualizer w) (deny_sqlite_env w).

(** The database the file holds; an absent file is an empty database. *)
Definition on_disk (w : world) : database :=
  default empty_database (db_file w).

(** What the process does, in order. *)
Inductive event :=
| Print (line : string)
| Makedirs (path : string)
| Connect (path : string)
| Execute (q : sql)
| Open (path mode : string)
| Executescript (script : list stmt)
| Close.

#[global] Instance event_eq_dec : EqDecision event.
Proof. solve_decision. Defined.

Record state := State {
  files : world;
  conn : connection;
  trace : list event;
}.

Definition log (ev : event) (s : state) : state :=
  State (files s) (conn s) (trace s ++ [ev]).

(** A computation returns a value or raises, and leaves a state either way. *)
Inductive outcome (A : Type) :=
| Returned (a : A) (s : state)
| Raised (e : exception) (s : state).
Arguments Returned {A} a s.
Arguments Raised {A} e s.

Definition M (A : Type) : Type := state → outcome A.

#[global] Instance M_ret : MRet M := λ A a s, Returned a s.
#[global] Instance M_bind : MBind M := λ A B f m s,
  match m s with
  | Returned a s' => f a s'
  | Raised e s' => Raised e s'
  end.

Definition raise {A} (e : exception) : M A := λ s, Raised e s.

(** [try: body / except Exception as e: handler e]. *)
Definition try_except {A} (body : M A) (handler : exception → M A) : M A :=
  λ s, match body s with
       | Returned a s' => Returned a s'
       | Raised e s' => handler e s'
       end.

(** [try: body / except FileNotFoundError: handler]. *)
Definition try_except_FileNotFoundError {A} (body handler : M A) : M A :=
  λ s, match body s with
       | Raised (FileNotFoundError _) s' => handler s'
       | r => r
       end.

(** [try: body / except sqlite3.Error: handler]. *)
Definition try_except_sqlite3_Error {A} (body handler : M A) : M A :=
  λ s, match body s with
       | Raised (OperationalError _) s' => handler s'
       | r => r
       end.

Definition final_state {A} (o : outcome A) : state :=
  match o with Returned _ s | Raised _ s => s end.

(** The exit status of the interpreter: 1 on an uncaught exception. *)
Definition exit_code {A} (o : outcome A) : nat :=
  match o with Returned _ _ => 0 | Raised _ _ => 1 end.

(** The lines printed to standard output. *)
Definition stdout (s : state) : list string :=
  omap (λ ev, match ev with Print l => Some l | _ => None end) (trace s).

Definition print (line : string) : M unit :=
  λ s, Returned () (log (Print line) s).

Definition the_engine (s : state) : engine := (on_disk (files s), conn s).

Definition set_engine (e : engine) (s : state) : state :=
  State (set_db_file (Some e.1) (files s)) e.2 (trace s).

(** [sqlite3.connect(DB_NAME)], which creates the file when absent. *)
Definition sqlite3_connect (path : string) : M unit :=
  λ s, Returned ()
         (State (set_db_file (Some (on_disk (files s))) (files s))
                (Connection None false) (trace s ++ [Connect path])).

(** [conn.close()]: an open transaction is not committed. *)
Definition close : M unit :=
  λ s, Returned () (State (files s) (Connection None false) (trace s ++ [Close])).

(** [with closing(...)]: the connection is closed on every way out. *)
Definition closing {A} (body : M A) : M A :=
  λ s, match body s with
       | Returned a s' => (close ;; mret a) s'
       | Raised e s' => (close ;; raise e) s'
       end.

(** [cursor.execute(q)]. *)
Definition cursor_execute (q : sql) : M unit :=
  λ s, let s := log (Execute q) s in
       match execute q (CURRENT_TIMESTAMP (files s)) (the_engine s) with
       | (e, None) => Returned () (set_engine e s)
       | (e, Some msg) => Raised (OperationalError msg) (set_engine e s)
       end.

(** [conn.executescript(script)]. *)
Definition conn_executescript (script : list stmt) : M unit :=
  λ s, let s := log (Executescript script) s in
       match executescript script (the_engine s) with
       | (e, None) => Returned () (set_engine e s)
       | (e, Some msg) => Raised (OperationalError msg) (set_engine e s)
       end.

(** What [fetchone()] gives after each of the three SELECTs. *)
Definition fetch_notes : M (option string) :=
  λ s, Returned (select_notes (view (the_engine s))) s.

Definition fetch_count_tables : M nat :=
  λ s, Returned (count_user_tables (view (the_engine s))) s.

Definition fetch_count_app_info : M nat :=
  λ s, Returned (match count_app_info (view (the_engine s)) with
                 | inl n => n | inr _ => 0 end) s.

End Py.

(* ===================================================================== *)
(** ** The script *)
(* ===================================================================== *)

Import Sqlite Py.

Definition DB_NAME : string := "myapp.db".
Definition MIGRATIONS_DIR : string := "migrations".

(** [os.path.join(a, b)] for a relative [b]. *)
Fixpoint ends_with_slash (a : string) : bool :=
  match a with
  | EmptyString => false
  | String c EmptyString => bool_decide (c = Ascii.ascii_of_nat 47)
  | String _ r => ends_with_slash r
  end.

Definition os_path_join (a b : string) : string :=
  match a with
  | EmptyString => b
  | _ => if ends_with_slash a then a +:+ b else a +:+ "/" +:+ b
  end.

Definition NOTES_MIGRATION_FILE : string :=
  os_path_join MIGRATIONS_DIR "001_create_notes.sql".

(** The newline and the double quote of Python's string literals. *)
Definition NL : string := String (Ascii.ascii_of_nat 10) EmptyString.
Definition QUOTE : string := String (Ascii.ascii_of_nat 34) EmptyString.

(** [sep.join(parts)]. *)
Fixpoint join (sep : string) (parts : list string) : string :=
  match parts with
  | [] => EmptyString
  | [p] => p
  | p :: rest => p +:+ sep +:+ join sep rest
  end.

(** [os.makedirs(MIGRATIONS_DIR, exist_ok=True)]. *)
Definition os_makedirs_migrations : M unit :=
  λ s, Returned () (State (set_migrations_dir true (files s)) (conn s)
                          (trace s ++ [Makedirs MIGRATIONS_DIR])).

(** [os.path.exists(DB_NAME)]. *)
Definition os_path_exists_db : M bool :=
  λ s, Returned (bool_decide (is_Some (db_file (files s)))) s.

(** [with open(NOTES_MIGRATION_FILE, "r", encoding="utf-8") as f: f.read()]. *)
Definition read_migration : M (list stmt) :=
  λ s, let s := log (Open NOTES_MIGRATION_FILE "r") s in
       match migration_file (files s) with
       | Some script => Returned script s
       | None =>
           Raised (FileNotFoundError
                     ("[Errno 2] No such file or directory: '"
                        +:+ NOTES_MIGRATION_FILE +:+ "'")) s
       end.

(** [os.getcwd()]. *)
Definition os_getcwd : M string := λ s, Returned (cwd (files s)) s.

(** [os.path.abspath(p)]: the working directory joined with [p] (the
    path [os.getcwd()] returns is normalized already). *)
Definition os_path_abspath (p : string) : M string :=
  λ s, Returned (os_path_join (cwd (files s)) p) s.

(** [with open("db_connection.txt", "w") as f: f.write(...) ...]. *)
Definition write_db_connection_txt (text : string) : M unit :=
  λ s, let s := log (Open "db_connection.txt" "w") s in
       match deny_db_connection_txt (files s) with
       | Some msg => Raised (OSError msg) s
       | None =>
           Returned () (State (set_db_connection_txt (Some text) (files s))
                              (conn s) (trace s))
       end.

(** [os.path.exists("db_visualizer")]. *)
Definition os_path_exists_db_visualizer : M bool :=
  λ s, Returned (db_visualizer (files s)) s.

(** [os.makedirs("db_visualizer", exist_ok=True)]. *)
Definition os_makedirs_db_visualizer : M unit :=
  λ s, let s := log (Makedirs "db_visualizer") s in
       match deny_db_visualizer (files s) with
       | Some msg => Raised (OSError msg) s
       | None =>
           Returned () (State (set_db_visualizer true (files s))
                              (conn s) (trace s))
       end.

(** [with open("db_visualizer/sqlite.env", "w") as f: f.write(...)]. *)
Definition write_sqlite_env (text : string) : M unit :=
  λ s, let s := log (Open "db_visualizer/sqlite.env" "w") s in
       match deny_sqlite_env (files s) with
       | Some msg => Raised (OSError msg) s
       | None =>
           Returned () (State (set_sqlite_env (Some text) (files s))
                              (conn s) (trace s))
       end.

(** Lines 42-73: foreign keys, BEGIN, the two base tables, the four
    seed rows. *)
Definition schema_and_seed : M unit :=
  cursor_execute PRAGMA_foreign_keys_ON ;;
  cursor_execute SQL_BEGIN ;;
  cursor_execute CREATE_app_info ;;
  cursor_execute CREATE_users ;;
  cursor_execute (INSERT_OR_REPLACE "project_name" "notes_database") ;;
  cursor_execute (INSERT_OR_REPLACE "version" "0.1.0") ;;
  cursor_execute (INSERT_OR_REPLACE "author" "John Doe") ;;
  cursor_execute (INSERT_OR_REPLACE "description" EmptyString).

(** Lines 75-92: the notes table is looked up in the catalog and the
    migration applied when it is missing; the value is [created_notes]. *)
Definition notes_migration : M bool :=
  cursor_execute SELECT_notes ;;
  row ← fetch_notes ;
  let notes_exists := bool_decide (is_Some row) in
  if negb notes_exists then
    try_except_FileNotFoundError
      (migration_sql ← read_migration ;
       conn_executescript migration_sql ;;
       mret true)
      (raise (FileNotFoundError
                ("Required migration not found: " +:+ NOTES_MIGRATION_FILE)))
  else mret false.

(** Lines 94-106: COMMIT and the two counts. *)
Definition commit_and_count : M (nat * nat) :=
  cursor_execute SQL_COMMIT ;;
  cursor_execute SELECT_COUNT_tables ;;
  table_count ← fetch_count_tables ;
  record_count ←
    try_except_sqlite3_Error
      (cursor_execute SELECT_COUNT_app_info ;; fetch_count_app_info)
      (mret 0) ;
  mret (table_count, record_count).

(** Lines 38-106, the [with closing(sqlite3.connect(DB_NAME))] block; the
    value is [(created_notes, table_count, record_count)]. *)
Definition database_block : M (bool * nat * nat) :=
  sqlite3_connect DB_NAME ;;
  closing
    (schema_and_seed ;;
     created_notes ← notes_migration ;
     '(table_count, record_count) ← commit_and_count ;
     mret (created_notes, table_count, record_count)).

(** The text written to [db_connection.txt], lines 114-117. *)
Definition connection_info (current_dir : string) : string :=
  let connection_string := "sqlite:///" +:+ current_dir +:+ "/" +:+ DB_NAME in
  ("# SQLite connection methods:" +:+ NL) +:+
  (("# Python: sqlite3.connect('" +:+ DB_NAME +:+ "')") +:+ NL) +:+
  (("# Connection string: " +:+ connection_string) +:+ NL) +:+
  (("# File path: " +:+ current_dir +:+ "/" +:+ DB_NAME) +:+ NL).

(** Line 143, with Python's precedence: [not] before [and] before [or]. *)
Definition notes_table_status (db_exists created_notes : bool) : string :=
  if (negb db_exists && created_notes) || created_notes
  then "created" else "ready".

(** Lines 138-143. *)
Definition status_parts (db_exists created_notes : bool)
    (table_count record_count : nat) : list string :=
  [ "SQLite setup complete";
    "DB=" +:+ DB_NAME;
    "tables=" +:+ pretty table_count;
    "app_info_records=" +:+ pretty record_count;
    "notes_table=" +:+ notes_table_status db_exists created_notes ].

(** Lines 108-147: the auxiliary files and the final status. *)
Definition report (db_exists created_notes : bool)
    (table_count record_count : nat) : M unit :=
  current_dir ← os_getcwd ;
  try_except
    (write_db_connection_txt (connection_info current_dir) ;;
     print "Connection information saved to db_connection.txt")
    (λ e, print ("Warning: Could not save connection info: " +:+ str e)) ;;
  db_path ← os_path_abspath DB_NAME ;
  visualizer_exists ← os_path_exists_db_visualizer ;
  (if negb visualizer_exists then
     os_makedirs_db_visualizer ;;
     print "Created db_visualizer directory"
   else mret ()) ;;
  try_except
    (write_sqlite_env ("export SQLITE_DB=" +:+ QUOTE +:+ db_path +:+ QUOTE +:+ NL) ;;
     print "Environment variables saved to db_visualizer/sqlite.env")
    (λ e, print ("Warning: Could not save environment variables: " +:+ str e)) ;;
  print (join " | " (status_parts db_exists created_notes table_count record_count)) ;;
  print ("Location: " +:+ current_dir +:+ "/" +:+ DB_NAME) ;;
  print ("Connect: sqlite3 " +:+ DB_NAME).

(** The whole script. *)
Definition main : M unit :=
  print "Starting SQLite setup..." ;;
  os_makedirs_migrations ;;
  db_exists ← os_path_exists_db ;
  (if db_exists
   then print ("SQLite database already exists at " +:+ DB_NAME)
   else print "Creating new SQLite database...") ;;
  '(created_notes, table_count, record_count) ← database_block ;
  report db_exists created_notes table_count record_count.

(** One run of the script in the working directory [w]. *)
Definition run (w : world) : outcome unit :=
  main (State w (Connection None false) []).

(** The working directory a run leaves behind, for the next run. *)
Definition after_run (w : world) : world := files (final_state (run w)).

(** A fresh empty directory holding at most a migration file. *)
Definition fresh (current_dir now : string) (migration : option (list stmt)) : world :=
  World current_dir now (bool_decide (is_Some migration)) None migration
        None false None None None None.



(* ===================================================================== *)
(** ** What a run does to the database *)
(* ===================================================================== *)

(** The seed rows of lines 66-73, in the order they are written. *)
Definition SEED : list (string * string) :=
  [ ("project_name", "notes_database"); ("version", "0.1.0");
    ("author", "John Doe"); ("description", EmptyString) ].

(** The statements of lines 48-73, in order. *)
Definition SETUP : list sql :=
  [ CREATE_app_info; CREATE_users;
    INSERT_OR_REPLACE "project_name" "notes_database";
    INSERT_OR_REPLACE "version" "0.1.0";
    INSERT_OR_REPLACE "author" "John Doe";
    INSERT_OR_REPLACE "description" EmptyString ].

(** What a statement of lines 48-73 does to the working copy of the open
    transaction. *)
Definition apply_sql (q : sql) (now : string) (db : database) : database + string :=
  match q with
  | CREATE_app_info => create_app_info db
  | CREATE_users => create_users db
  | INSERT_OR_REPLACE key value => insert_or_replace key value now db
  | _ => inl db
  end.

(** Statements one after the other, up to the first that fails: the
    statements executed, the failing one included, and the working copy
    they leave or the message of the error. *)
Fixpoint apply_all (now : string) (qs : list sql) (db : database)
  : list sql * (database + string) :=
  match qs with
  | [] => ([], inl db)
  | q :: rest =>
      match apply_sql q now db with
      | inl db' => let r := apply_all now rest db' in (q :: r.1, r.2)
      | inr msg => ([q], inr msg)
      end
  end.

(** [cursor.execute] on each statement in turn. *)
Fixpoint execute_all (qs : list sql) : M unit :=
  match qs with
  | [] => mret ()
  | q :: rest => cursor_execute q ;; execute_all rest
  end.

(** The statements of lines 48-73. *)
Definition setup_stmt (q : sql) : Prop :=
  match q with
  | CREATE_app_info | CREATE_users | INSERT_OR_REPLACE _ _ => True
  | _ => False
  end.

(** Lines 48-73 on the database [d]: the statements executed, and the
    working copy at line 75 or the message of the statement that
    failed. *)
Definition attempted (now : string) (d : database) : list sql :=
  (apply_all now SETUP d).1.

Definition prepared (now : string) (d : database) : database + string :=
  (apply_all now SETUP d).2.

(** The rows of [app_info] and of [users]; an absent table has none. *)
Definition rows_of (db : database) : list app_info_row := default [] (app_info db).
Definition user_rows (db : database) : list users_row := default [] (users db).

(** Lines 48-73 pass on [d]: no index bears the name of a base table
    that is still to be made, and app_info has four rowids left. *)
Definition seedable (d : database) : Prop :=
  (app_info d = None → find_name "app_info" (index_names d) = None)
  ∧ (users d = None → find_name "users" (index_names d) = None)
  ∧ (last_id d (rows_of d) + 3 < MAX_ROWID)%Z.

(** The database with the two base tables, made where they were
    missing. *)
Definition base (db : database) : database :=
  let db1 := match app_info db with Some _ => db | None => with_app_info db end in
  match users db1 with Some _ => db1 | None => with_users db1 end.

(** The row [kv] put into app_info. *)
Definition upsert (now : string) (db : database) (kv : string * string) : database :=
  match app_info db with
  | Some rows => put_row kv.1 kv.2 now db rows
  | None => db
  end.

(** The database as lines 48-73 leave it when they pass
    ([prepared_seeded] below). *)
Definition seeded (now : string) (db : database) : database :=
  foldl (upsert now) (base db) SEED.

(** The keys and values of app_info. *)
Definition key_values (db : database) : list (string * option string) :=
  (λ r, (ai_key r, ai_value r)) <$> rows_of db.

(** The keys and values the seed rows give. *)
Definition SEED_key_values : list (string * option string) :=
  (λ kv, (kv.1, Some kv.2)) <$> SEED.

Definition rows_with_key (key : string) (rows : list app_info_row)
  : list app_info_row :=
  filter (λ r, ai_key r = key) rows.

(** Every seed key has exactly one row, and it holds the seed value. *)
Definition seed_ok (db : database) : Prop :=
  ∀ key value, (key, value) ∈ SEED →
    ∃ r, rows_with_key key (rows_of db) = [r] ∧ ai_value r = Some value.

(** [d'] has the base tables of [d] as they are and at least the
    migration tables and indexes of [d]. *)
Definition extends (d d' : database) : Prop :=
  app_info d' = app_info d ∧ users d' = users d
  ∧ sqlite_sequence d' = sqlite_sequence d
  ∧ tables d ⊆ tables d' ∧ indexes d ⊆ indexes d'.

(** The engine has only added migration tables and indexes to [d]. *)
Definition grows_from (d : database) (e : engine) : Prop :=
  extends d e.1 ∧ ∀ p, pending e.2 = Some p → extends e.1 p.

(** The events of lines 42-73 when they pass, and of lines 95-103. *)
Definition seed_events : list event :=
  [ Execute PRAGMA_foreign_keys_ON; Execute SQL_BEGIN;
    Execute CREATE_app_info; Execute CREATE_users;
    Execute (INSERT_OR_REPLACE "project_name" "notes_database");
    Execute (INSERT_OR_REPLACE "version" "0.1.0");
    Execute (INSERT_OR_REPLACE "author" "John Doe");
    Execute (INSERT_OR_REPLACE "description" EmptyString) ].

Definition count_events : list event :=
  [ Execute SQL_COMMIT; Execute SELECT_COUNT_tables; Execute SELECT_COUNT_app_info ].

(** The state once the connection is closed on the database [db]. *)
Definition closed (w : world) (db : database) (t : list event) : state :=
  State (set_db_file (Some db) w) (Connection None false) (t ++ [Close]).

Definition counted (w : world) (db : database) (created : bool) (t : list event)
  : outcome (bool * nat * nat) :=
  Returned (created, count_user_tables db,
            match count_app_info db with inl n => n | inr _ => 0 end)
           (closed w db (t ++ count_events)).

(** The outcome of lines 75-106 when lines 42-73 have left the working
    copy [sd], case by case: the notes table is there; it is not and
    neither is the migration file; the script fails; the script leaves a
    transaction open for COMMIT; it leaves none. *)
Definition block_after_seed (w : world) (sd : database) (t : list event)
  : outcome (bool * nat * nat) :=
  let t1 := t ++ Connect DB_NAME :: seed_events ++ [Execute SELECT_notes] in
  match select_notes sd with
  | Some _ => counted w sd false t1
  | None =>
      let t2 := t1 ++ [Open NOTES_MIGRATION_FILE "r"] in
      match migration_file w with
      | None =>
          Raised (FileNotFoundError
                    ("Required migration not found: " +:+ NOTES_MIGRATION_FILE))
                 (closed w (on_disk w) t2)
      | Some script =>
          let t3 := t2 ++ [Executescript script] in
          match exec_script script (sd, Connection None true) with
          | (e, Some msg) => Raised (OperationalError msg) (closed w e.1 t3)
          | (e, None) =>
              match pending e.2 with
              | Some db => counted w db true t3
              | None =>
                  Raised (OperationalError "cannot commit - no transaction is active")
                         (closed w e.1 (t3 ++ [Execute SQL_COMMIT]))
              end
          end
      end
  end.

(** The outcome of [database_block]: a statement of lines 48-73 fails
    and the file is left as it was, or they pass and the block goes on
    as [block_after_seed] has it. [database_block_spec] proves that this
    is what the block does. *)
Definition block_outcome (w : world) (t : list event) : outcome (bool * nat * nat) :=
  match prepared (CURRENT_TIMESTAMP w) (on_disk w) with
  | inl sd => block_after_seed w sd t
  | inr msg =>
      Raised (OperationalError msg)
             (closed w (on_disk w)
                (t ++ Connect DB_NAME :: Execute PRAGMA_foreign_keys_ON
                   :: Execute SQL_BEGIN
                   :: (Execute <$> attempted (CURRENT_TIMESTAMP w) (on_disk w))))
  end.

(** [w'] differs from [w] by the auxiliary outputs at most. *)
Definition same_inputs (w w' : world) : Prop :=
  cwd w' = cwd w ∧ CURRENT_TIMESTAMP w' = CURRENT_TIMESTAMP w
  ∧ migrations_dir w' = migrations_dir w ∧ db_file w' = db_file w
  ∧ migration_file w' = migration_file w
  ∧ deny_db_connection_txt w' = deny_db_connection_txt w
  ∧ deny_db_visualizer w' = deny_db_visualizer w
  ∧ deny_sqlite_env w' = deny_sqlite_env w.

(** The events of the auxiliary outputs. *)
Definition auxiliary (ev : event) : Prop :=
  match ev with
  | Print _ => True
  | Makedirs path => path = "db_visualizer"
  | Open path _ => path = "db_connection.txt" ∨ path = "db_visualizer/sqlite.env"
  | _ => False
  end.

(** The events that open or execute the migration file. *)
Definition touches_migration (ev : event) : bool :=
  match ev with
  | Open path _ => bool_decide (path = NOTES_MIGRATION_FILE)
  | Executescript _ => true
  | _ => false
  end.

(** The events of lines 25-35. *)
Definition preamble (db_exists : bool) : list event :=
  [ Print "Starting SQLite setup..."; Makedirs MIGRATIONS_DIR;
    Print (if db_exists
           then "SQLite database already exists at " +:+ DB_NAME
           else "Creating new SQLite database...") ].

(** The events a run can have made when it has not come to line 75:
    the statements of lines 42-73, no script, no file opened, no status
    line. *)
Definition early_event (ev : event) : Prop :=
  match ev with
  | Print line => String.prefix "SQLite setup complete" line = false
  | Makedirs path => path = MIGRATIONS_DIR
  | Connect _ | Close => True
  | Execute q => q = PRAGMA_foreign_keys_ON ∨ q = SQL_BEGIN ∨ setup_stmt q
  | Open _ _ | Executescript _ => False
  end.

(** The trace of a run that fails in lines 48-73. *)
Definition early_trace (w : world) : list event :=
  (preamble (bool_decide (is_Some (db_file w)))
   ++ Connect DB_NAME :: Execute PRAGMA_foreign_keys_ON :: Execute SQL_BEGIN
      :: (Execute <$> attempted (CURRENT_TIMESTAMP w) (on_disk w))) ++ [Close].

(** The same outcome in a directory whose migration file is [m]. *)
Definition with_migration {A} (m : option (list stmt)) (o : outcome A) : outcome A :=
  match o with
  | Returned a (State w c t) => Returned a (State (set_migration_file m w) c t)
  | Raised e (State w c t) => Raised e (State (set_migration_file m w) c t)
  end.

(** A run gets past the migration step: the notes table is there or the
    migration file is. *)
Definition past_migration (w : world) : Prop :=
  "notes" ∈ table_names (on_disk w) ∨ is_Some (migration_file w).

(** The status line of a run that ends well: the third line from the end
    of what it prints (lines 145-147). *)
Definition status_line (s : state) : option string :=
  reverse (stdout s) !! 2.

(** Some line printed is a status line. *)
Definition reports_status (s : state) : Prop :=
  ∃ line, line ∈ stdout s
          ∧ String.prefix "SQLite setup complete" line = true.

(** The lines of a text: each ends at a newline. *)
Fixpoint lines_from (acc text : string) : list string :=
  match text with
  | EmptyString => match acc with EmptyString => [] | _ => [acc] end
  | String c rest =>
      if bool_decide (c = Ascii.ascii_of_nat 10)
      then acc :: lines_from EmptyString rest
      else lines_from (acc +:+ String c EmptyString) rest
  end.

Definition lines (text : string) : list string := lines_from EmptyString text.

(** The text made of the given lines, a newline after each. *)
Fixpoint unlines (ls : list string) : string :=
  match ls with
  | [] => EmptyString
  | [l] => l +:+ NL
  | l :: rest => (l +:+ NL) +:+ unlines rest
  end.

(** The text written to [db_visualizer/sqlite.env], line 132. *)
Definition env_text (current_dir : string) : string :=
  "export SQLITE_DB=" +:+ QUOTE +:+ os_path_join current_dir DB_NAME +:+ QUOTE +:+ NL.

(** The viewer directory is there or can be made. *)
Definition viewer_dir_ok (w : world) : bool :=
  db_visualizer w || match deny_db_visualizer w with None => true | Some _ => false end.

(* ===================================================================== *)
(** ** The working directories of the scenarios *)
(* ===================================================================== *)

Definition NOW : string := "2026-01-01 00:00:00".

(** Scenario A: a fresh directory and a migration defining
    [notes(id, title, body)]. *)
Definition scenario_a : world :=
  fresh "/srv/app" NOW (Some [CREATE_TABLE false "notes" ["id"; "title"; "body"]]).

(** Scenario C: a fresh directory without migration file. *)
Definition scenario_c : world := fresh "/srv/app" NOW None.

(** A migration that defines another table and no notes table. *)
Definition scenario_memos : world :=
  fresh "/srv/app" NOW (Some [CREATE_TABLE true "memos" ["id"; "text"]]).

(** Scenario B: the directory as the run of scenario A left it. *)
Definition scenario_b : world := after_run scenario_a.

(** The directory of scenario B, in which the [db_visualizer] directory
    cannot be made. *)
Definition scenario_denied : world :=
  World "/srv/app" NOW true (db_file scenario_b) (migration_file scenario_b)
        None false None
        None (Some "[Errno 13] Permission denied: 'db_visualizer'") None.

(** A migration that opens a transaction and leaves it open. *)
Definition scenario_open : world :=
  fresh "/srv/app" NOW
        (Some [BEGIN; CREATE_TABLE false "notes" ["id"; "title"; "body"]]).

(** A migration whose second statement the engine cannot read. *)
Definition scenario_broken : world :=
  fresh "/srv/app" NOW
        (Some [ CREATE_TABLE false "notes" ["id"; "title"; "body"];
                Unparsable (syntax_error_near "INDX") ]).

(** A migration that fails inside a transaction of its own, after it
    has created the notes table there. *)
Definition scenario_lost : world :=
  fresh "/srv/app" NOW
        (Some [ BEGIN; CREATE_TABLE false "notes" ["id"; "title"; "body"];
                Unparsable (syntax_error_near "INDX") ]).

(** The directory of scenario B, in which both auxiliary files are
    refused. *)
Definition scenario_refused : world :=
  World "/srv/app" NOW true (db_file scenario_b) (migration_file scenario_b)
        None false None
        (Some "[Errno 13] Permission denied: 'db_connection.txt'") None
        (Some "[Errno 13] Permission denied: 'db_visualizer/sqlite.env'").

(** A database whose app_info holds a row under the largest rowid, and
    a directory with this database and no migration file. *)
Definition full_database : database :=
  Database (Some [AppInfoRow MAX_ROWID "motd" (Some "hello") NOW]) (Some [])
           (Some {[ "app_info" := MAX_ROWID ]}) ∅ ∅.

Definition scenario_full : world :=
  World "/srv/app" NOW true (Some full_database) None
        None false None None None None.

(* ===================================================================== *)
(** ** The script, step by step *)
(* ===================================================================== *)

Lemma bind_returned {A B} (m : M A) (k : A → M B) s a s' :
  m s = Returned a s' → (m ≫= k) s = k a s'.
Proof. intros H. unfold mbind, M_bind. by rewrite H. Qed.

Lemma bind_raised {A B} (m : M A) (k : A → M B) s e s' :
  m s = Raised e s' → (m ≫= k) s = Raised e s'.
Proof. intros H. unfold mbind, M_bind. by rewrite H. Qed.

Lemma cursor_execute_eq q w d c t :
  cursor_execute q (State (set_db_file (Some d) w) c t) =
  match execute q (CURRENT_TIMESTAMP w) (d, c) with
  | (e, None) => Returned () (State (set_db_file (Some e.1) w) e.2 (t ++ [Execute q]))
  | (e, Some msg) =>
      Raised (OperationalError msg)
             (State (set_db_file (Some e.1) w) e.2 (t ++ [Execute q]))
  end.
Proof. reflexivity. Qed.

Lemma cursor_execute_ok q w d c t e :
  execute q (CURRENT_TIMESTAMP w) (d, c) = (e, None) →
  cursor_execute q (State (set_db_file (Some d) w) c t) =
  Returned () (State (set_db_file (Some e.1) w) e.2 (t ++ [Execute q])).
Proof. intros H. by rewrite cursor_execute_eq, H. Qed.

Lemma cursor_execute_err q w d c t e msg :
  execute q (CURRENT_TIMESTAMP w) (d, c) = (e, Some msg) →
  cursor_execute q (State (set_db_file (Some d) w) c t) =
  Raised (OperationalError msg) (State (set_db_file (Some e.1) w) e.2 (t ++ [Execute q])).
Proof. intros H. by rewrite cursor_execute_eq, H. Qed.

(** A statement of lines 48-73 inside the transaction of line 45: it
    works on the working copy, and the file is as it was whether the
    statement passes or fails. *)
Lemma cursor_execute_setup q w d X fk t :
  setup_stmt q →
  ∃ c, cursor_execute q (State (set_db_file (Some d) w) (Connection (Some X) fk) t) =
       match apply_sql q (CURRENT_TIMESTAMP w) X with
       | inl X' =>
           Returned () (State (set_db_file (Some d) w) (Connection (Some X') fk)
                              (t ++ [Execute q]))
       | inr msg =>
           Raised (OperationalError msg)
                  (State (set_db_file (Some d) w) c (t ++ [Execute q]))
       end.
Proof.
  intros Hq.
  assert (Hex : ∃ c, ∀ e r,
            execute q (CURRENT_TIMESTAMP w) (d, Connection (Some X) fk) = (e, r) →
            match apply_sql q (CURRENT_TIMESTAMP w) X with
            | inl X' => e = (d, Connection (Some X') fk) ∧ r = None
            | inr msg => e = (d, c) ∧ r = Some msg
            end).
  { destruct q; try done; cbn [execute apply_sql];
      unfold update, view, store, result;
      cbn [pending snd fst default from_option foreign_keys]; unfold id.
    - exists (Connection (Some X) fk).
      destruct (create_app_info X); by intros ? ? [= <- <-].
    - exists (Connection (Some X) fk).
      destruct (create_users X); by intros ? ? [= <- <-].
    - destruct (insert_or_replace key value _ X) as [?|msg];
        [exists (Connection (Some X) fk); by intros ? ? [= <- <-]|].
      destruct (bool_decide (msg = SQLITE_FULL)); eexists; by intros ? ? [= <- <-]. }
  destruct Hex as [c Hex]. exists c. rewrite cursor_execute_eq.
  destruct (execute q _ _) as [e r] eqn:He. specialize (Hex e r eq_refl).
  destruct (apply_sql q _ X); destruct Hex as [-> ->]; reflexivity.
Qed.

Lemma execute_all_spec qs :
  Forall setup_stmt qs → ∀ w d X fk t,
  ∃ c, execute_all qs (State (set_db_file (Some d) w) (Connection (Some X) fk) t) =
       match (apply_all (CURRENT_TIMESTAMP w) qs X).2 with
       | inl X' =>
           Returned () (State (set_db_file (Some d) w) (Connection (Some X') fk)
                          (t ++ (Execute <$> (apply_all (CURRENT_TIMESTAMP w) qs X).1)))
       | inr msg =>
           Raised (OperationalError msg)
                  (State (set_db_file (Some d) w) c
                     (t ++ (Execute <$> (apply_all (CURRENT_TIMESTAMP w) qs X).1)))
       end.
Proof.
  induction 1 as [|q qs Hq _ IH]; intros w d X fk t.
  - exists (Connection None false). cbn. by rewrite app_nil_r.
  - destruct (cursor_execute_setup q w d X fk t Hq) as [c Hc].
    cbn [apply_all execute_all].
    destruct (apply_sql q (CURRENT_TIMESTAMP w) X) as [X'|msg] eqn:Ha.
    + destruct (IH w d X' fk (t ++ [Execute q])) as [c' Hc'].
      exists c'. erewrite bind_returned; [|exact Hc].
      rewrite Hc'. cbn [fst snd fmap list_fmap].
      destruct ((apply_all (CURRENT_TIMESTAMP w) qs X').2);
        rewrite <- (assoc_L (++)); reflexivity.
    + exists c. erewrite bind_raised; [|exact Hc]. cbn. reflexivity.
Qed.

Lemma schema_and_seed_eq s :
  schema_and_seed s
  = (cursor_execute PRAGMA_foreign_keys_ON ;; cursor_execute SQL_BEGIN ;;
     execute_all SETUP) s.
Proof.
  unfold schema_and_seed, SETUP, execute_all, mbind, M_bind.
  repeat match goal with
         | |- context [cursor_execute ?q ?s0] =>
             destruct (cursor_execute q s0) as [[] ?|? ?]; [|reflexivity]
         end.
  reflexivity.
Qed.

(** *** Rowids *)

Lemma max_id_cons r rest :
  rest ≠ [] → max_id (r :: rest) = Z.max (ai_id r) (max_id rest).
Proof. by destruct rest. Qed.

Lemma max_id_ge rows r : r ∈ rows → (ai_id r ≤ max_id rows)%Z.
Proof.
  induction rows as [|x rows IH]; [by intros ?%elem_of_nil|].
  destruct rows as [|y rows].
  - intros ->%list_elem_of_singleton. simpl. lia.
  - rewrite max_id_cons by done. intros [->|Hin]%elem_of_cons; [lia|].
    specialize (IH Hin). lia.
Qed.

Lemma max_id_snoc rows x :
  (∀ r, r ∈ rows → (ai_id r ≤ ai_id x)%Z) → max_id (rows ++ [x]) = ai_id x.
Proof.
  induction rows as [|r rows IH]; intros H; [done|].
  rewrite <- app_comm_cons, max_id_cons by (by destruct rows).
  rewrite IH by (intros; apply H; by right).
  pose proof (H r ltac:(left)). lia.
Qed.

Lemma app_info_upsert now db kv :
  is_Some (app_info db) → is_Some (app_info (upsert now db kv)).
Proof. intros [rows H]. unfold upsert. rewrite H. by eexists. Qed.

Lemma upsert_rows now db kv :
  is_Some (app_info db) →
  rows_of (upsert now db kv) =
  filter (λ r, ai_key r ≠ kv.1) (rows_of db)
    ++ [AppInfoRow (next_id db (rows_of db)) kv.1 (Some kv.2) now].
Proof. intros [rows H]. unfold upsert, rows_of. by rewrite H. Qed.

(** Each row put in uses up one rowid. *)
Lemma last_id_upsert now db kv :
  is_Some (app_info db) →
  last_id (upsert now db kv) (rows_of (upsert now db kv))
  = (last_id db (rows_of db) + 1)%Z.
Proof.
  intros Hs. rewrite upsert_rows by done. destruct Hs as [rows H].
  unfold upsert. rewrite H. unfold last_id at 1.
  cbn [sqlite_sequence put_row default from_option]. unfold id.
  rewrite lookup_insert_eq. cbn [default from_option].
  rewrite max_id_snoc;
    [unfold next_id, rows_of; rewrite H; cbn [default from_option ai_id]; unfold id; lia|].
  intros r [_ Hr]%list_elem_of_filter. cbn [ai_id]. unfold next_id, last_id.
  pose proof (max_id_ge _ _ Hr). lia.
Qed.

Lemma insert_or_replace_ok key value now db :
  is_Some (app_info db) →
  (last_id db (rows_of db) < MAX_ROWID)%Z →
  insert_or_replace key value now db = inl (upsert now db (key, value)).
Proof.
  intros [rows H] Hlt. unfold insert_or_replace, upsert, rows_of in *.
  rewrite H in *. cbn [default from_option] in Hlt; unfold id in Hlt. rewrite bool_decide_false by lia. done.
Qed.

Lemma insert_or_replace_full key value now db :
  is_Some (app_info db) →
  (MAX_ROWID ≤ last_id db (rows_of db))%Z →
  insert_or_replace key value now db = inr SQLITE_FULL.
Proof.
  intros [rows H] Hlt. unfold insert_or_replace, rows_of in *.
  rewrite H in *. cbn [default from_option] in Hlt; unfold id in Hlt. by rewrite bool_decide_true.
Qed.

(** The seed rows go in one after the other as long as rowids are
    left. *)
Lemma apply_inserts_ok now l db :
  is_Some (app_info db) →
  (last_id db (rows_of db) + Z.of_nat (length l) ≤ MAX_ROWID)%Z →
  apply_all now ((λ kv, INSERT_OR_REPLACE kv.1 kv.2) <$> l) db
  = ((λ kv, INSERT_OR_REPLACE kv.1 kv.2) <$> l, inl (foldl (upsert now) db l)).
Proof.
  revert db. induction l as [|[k v] l IH]; intros db Hs Hlt; [done|].
  rewrite fmap_cons. cbn [apply_all apply_sql fst snd foldl].
  cbn [length] in Hlt.
  rewrite insert_or_replace_ok by (done || lia).
  rewrite IH; [done|by apply app_info_upsert|].
  rewrite last_id_upsert by done. lia.
Qed.

Lemma apply_inserts_full now l db :
  is_Some (app_info db) → l ≠ [] →
  (MAX_ROWID < last_id db (rows_of db) + Z.of_nat (length l))%Z →
  (apply_all now ((λ kv, INSERT_OR_REPLACE kv.1 kv.2) <$> l) db).2 = inr SQLITE_FULL.
Proof.
  revert db. induction l as [|[k v] l IH]; intros db Hs Hl Hlt; [done|].
  rewrite fmap_cons. cbn [apply_all apply_sql fst snd].
  cbn [length] in Hlt.
  destruct (decide (MAX_ROWID ≤ last_id db (rows_of db))%Z) as [Hf|Hf].
  - by rewrite insert_or_replace_full.
  - rewrite insert_or_replace_ok by (done || lia). cbn [snd].
    apply IH; [by apply app_info_upsert| |].
    + destruct l; [cbn [length] in Hlt; lia|done].
    + rewrite last_id_upsert by done. lia.
Qed.

(** *** Lines 48-73 *)

Lemma apply_all_cons now q rest db :
  apply_all now (q :: rest) db
  = match apply_sql q now db with
    | inl db' => (q :: (apply_all now rest db').1, (apply_all now rest db').2)
    | inr msg => ([q], inr msg)
    end.
Proof. reflexivity. Qed.

Lemma rows_of_base d : rows_of (base d) = rows_of d.
Proof. by destruct d as [[?|] [?|] ? ? ?]. Qed.

Lemma user_rows_base d : user_rows (base d) = user_rows d.
Proof. by destruct d as [[?|] [?|] ? ? ?]. Qed.

Lemma tables_base d :
  tables (base d) = tables d ∧ indexes (base d) = indexes d.
Proof. by destruct d as [[?|] [?|] ? ? ?]. Qed.

Lemma base_present d :
  is_Some (app_info (base d)) ∧ is_Some (users (base d)).
Proof. destruct d as [[?|] [?|] ? ? ?]; cbn; split; by eexists. Qed.

Lemma app_info_base d : is_Some (app_info (base d)).
Proof. apply base_present. Qed.

Lemma last_id_base d : last_id (base d) (rows_of (base d)) = last_id d (rows_of d).
Proof. by destruct d as [[?|] [?|] [?|] ? ?]. Qed.

(** The messages of the statements of lines 48-73 that can fail. *)
Lemma setup_messages_cases msg :
  msg ∈ [ "there is already an index named app_info";
          "there is already an index named users"; SQLITE_FULL ] →
  msg = "there is already an index named app_info"
  ∨ msg = "there is already an index named users"
  ∨ msg = "database or disk is full".
Proof.
  intros H. repeat (apply elem_of_cons in H as [H|H]; [tauto|]).
  by apply elem_of_nil in H.
Qed.

(** Lines 48-73 pass exactly on the databases that are [seedable], and
    then leave the [seeded] database. *)
Lemma apply_all_SETUP now d :
  (seedable d ∧ apply_all now SETUP d = (SETUP, inl (seeded now d)))
  ∨ (¬ seedable d
     ∧ ∃ msg, (apply_all now SETUP d).2 = inr msg
              ∧ msg ∈ [ "there is already an index named app_info";
                        "there is already an index named users"; SQLITE_FULL ]).
Proof.
  unfold SETUP. rewrite apply_all_cons. cbn [apply_sql].
  assert (H1 : (create_app_info d
                = inl match app_info d with Some _ => d | None => with_app_info d end
                ∧ (app_info d = None → find_name "app_info" (index_names d) = None))
               ∨ (¬ seedable d
                  ∧ create_app_info d = inr "there is already an index named app_info")).
  { unfold create_app_info. destruct (app_info d) eqn:Ha; [by left|].
    destruct (find_name "app_info" (index_names d)) eqn:Hf; [right|by left].
    split; [|done]. intros (H&_). specialize (H Ha). congruence. }
  destruct H1 as [[-> S1]|(Hn&->)].
  2:{ right. split; [done|]. eexists. split; [reflexivity|]. set_solver. }
  cbv beta iota zeta. rewrite apply_all_cons. cbn [apply_sql].
  set (d1 := match app_info d with Some _ => d | None => with_app_info d end).
  assert (E1 : users d1 = users d ∧ index_names d1 = index_names d).
  { unfold d1. by destruct (app_info d). }
  destruct E1 as [Eu Ei].
  assert (H2 : (create_users d1 = inl (base d)
                ∧ (users d = None → find_name "users" (index_names d) = None))
               ∨ (¬ seedable d
                  ∧ create_users d1 = inr "there is already an index named users")).
  { unfold create_users, base. fold d1. rewrite Eu, Ei.
    destruct (users d) eqn:Hu; [by left|].
    destruct (find_name "users" (index_names d)) eqn:Hf; [right|by left].
    split; [|done]. intros (_&H&_). specialize (H Hu). congruence. }
  destruct H2 as [[-> S2]|(Hn&->)].
  2:{ right. split; [done|]. eexists. split; [reflexivity|]. set_solver. }
  cbv beta iota zeta. cbn [fst snd].
  change [INSERT_OR_REPLACE "project_name" "notes_database";
          INSERT_OR_REPLACE "version" "0.1.0";
          INSERT_OR_REPLACE "author" "John Doe";
          INSERT_OR_REPLACE "description" EmptyString]
    with ((λ kv : string * string, INSERT_OR_REPLACE kv.1 kv.2) <$> SEED).
  pose proof (last_id_base d) as Hl.
  destruct (decide (last_id d (rows_of d) + 3 < MAX_ROWID)%Z) as [Hr|Hr].
  - rewrite apply_inserts_ok;
      [|apply app_info_base|rewrite Hl; cbn [SEED length]; lia].
    left. split; [by repeat split|reflexivity].
  - right. split; [by intros (_&_&?)|]. exists SQLITE_FULL.
    rewrite apply_inserts_full;
      [|apply app_info_base|done|rewrite Hl; cbn [SEED length]; lia].
    split; [done|]. set_solver.
Qed.

(** Lines 48-73, outcome by outcome. *)
Lemma prepared_cases now d :
  (seedable d ∧ prepared now d = inl (seeded now d) ∧ attempted now d = SETUP)
  ∨ (¬ seedable d
     ∧ ∃ msg, prepared now d = inr msg
              ∧ msg ∈ [ "there is already an index named app_info";
                        "there is already an index named users"; SQLITE_FULL ]).
Proof.
  unfold prepared, attempted.
  destruct (apply_all_SETUP now d) as [[Hs ->]|[Hn Hm]]; [left|right]; done.
Qed.

Lemma prepared_seeded now d sd :
  prepared now d = inl sd →
  seedable d ∧ sd = seeded now d ∧ attempted now d = SETUP.
Proof.
  destruct (prepared_cases now d) as [(Hs&->&Ha)|(_&msg&->&_)]; [|done].
  by intros [= <-].
Qed.

Lemma seedable_prepared now d :
  seedable d → prepared now d = inl (seeded now d) ∧ attempted now d = SETUP.
Proof. destruct (prepared_cases now d) as [(_&?&?)|(?&_)]; done. Qed.

Lemma apply_all_setup now qs db q :
  Forall setup_stmt qs → q ∈ (apply_all now qs db).1 → setup_stmt q.
Proof.
  intros Hqs. revert db. induction Hqs as [|q0 qs Hq0 _ IH]; intros db;
    [by intros ?%elem_of_nil|].
  rewrite apply_all_cons. destruct (apply_sql q0 now db) as [db'|msg]; cbn [fst].
  - intros [->|Hin]%elem_of_cons; [done|]. by apply (IH db').
  - by intros ->%list_elem_of_singleton.
Qed.

Lemma attempted_setup now d q : q ∈ attempted now d → setup_stmt q.
Proof.
  apply apply_all_setup. unfold SETUP. by repeat constructor.
Qed.

Lemma schema_and_seed_spec w d fk t :
  ∃ c, schema_and_seed (State (set_db_file (Some d) w) (Connection None fk) t) =
       match prepared (CURRENT_TIMESTAMP w) d with
       | inl sd =>
           Returned () (State (set_db_file (Some d) w) (Connection (Some sd) true)
                          (t ++ Execute PRAGMA_foreign_keys_ON :: Execute SQL_BEGIN
                             :: (Execute <$> attempted (CURRENT_TIMESTAMP w) d)))
       | inr msg =>
           Raised (OperationalError msg)
                  (State (set_db_file (Some d) w) c
                     (t ++ Execute PRAGMA_foreign_keys_ON :: Execute SQL_BEGIN
                        :: (Execute <$> attempted (CURRENT_TIMESTAMP w) d)))
       end.
Proof.
  destruct (execute_all_spec SETUP ltac:(unfold SETUP; by repeat constructor)
              w d d true ((t ++ [Execute PRAGMA_foreign_keys_ON]) ++ [Execute SQL_BEGIN]))
    as [c Hc].
  exists c. rewrite schema_and_seed_eq.
  erewrite bind_returned;
    [|apply (cursor_execute_ok _ _ _ _ _ (d, Connection None true)); reflexivity].
  cbn [fst snd].
  erewrite bind_returned;
    [|apply (cursor_execute_ok _ _ _ _ _ (d, Connection (Some d) true)); reflexivity].
  cbn [fst snd]. rewrite Hc. unfold prepared, attempted.
  destruct ((apply_all (CURRENT_TIMESTAMP w) SETUP d).2);
    rewrite <- !(assoc_L (++)); reflexivity.
Qed.

Lemma execute_count_app_info now d fk :
  execute SELECT_COUNT_app_info now (d, Connection None fk) =
  ((d, Connection None fk),
   match count_app_info d with inl _ => None | inr msg => Some msg end).
Proof. reflexivity. Qed.

Lemma fetch_count_app_info_eq w d fk t :
  fetch_count_app_info (State (set_db_file (Some d) w) (Connection None fk) t) =
  Returned (match count_app_info d with inl n => n | inr _ => 0 end)
           (State (set_db_file (Some d) w) (Connection None fk) t).
Proof. reflexivity. Qed.

Lemma commit_and_count_open w d p fk t :
  commit_and_count (State (set_db_file (Some d) w) (Connection (Some p) fk) t) =
  Returned (count_user_tables p,
            match count_app_info p with inl n => n | inr _ => 0 end)
           (State (set_db_file (Some p) w) (Connection None fk) (t ++ count_events)).
Proof.
  unfold commit_and_count.
  erewrite bind_returned;
    [|apply (cursor_execute_ok _ _ _ _ _ (p, Connection None fk)); reflexivity].
  cbn [fst snd].
  erewrite bind_returned;
    [|apply (cursor_execute_ok _ _ _ _ _ (p, Connection None fk)); reflexivity].
  cbn [fst snd].
  erewrite bind_returned; [|reflexivity].
  unfold try_except_sqlite3_Error, count_events.
  rewrite <- !(assoc_L (++)); simpl app.
  destruct (count_app_info p) as [n|msg] eqn:Hc.
  - erewrite bind_returned; [reflexivity|].
    erewrite bind_returned.
    2:{ apply (cursor_execute_ok _ _ _ _ _ (p, Connection None fk)).
        rewrite execute_count_app_info, Hc. reflexivity. }
    cbn [fst snd]. rewrite fetch_count_app_info_eq, Hc.
    by rewrite <- !(assoc_L (++)).
  - erewrite bind_returned; [reflexivity|].
    erewrite bind_raised.
    2:{ apply (cursor_execute_err _ _ _ _ _ (p, Connection None fk)).
        rewrite execute_count_app_info, Hc. reflexivity. }
    unfold mret, M_ret. by rewrite <- !(assoc_L (++)).
Qed.

Lemma commit_and_count_idle w d fk t :
  commit_and_count (State (set_db_file (Some d) w) (Connection None fk) t) =
  Raised (OperationalError "cannot commit - no transaction is active")
         (State (set_db_file (Some d) w) (Connection None fk) (t ++ [Execute SQL_COMMIT])).
Proof.
  unfold commit_and_count.
  erewrite bind_raised;
    [|apply (cursor_execute_err _ _ _ _ _ (d, Connection None fk)); reflexivity].
  reflexivity.
Qed.

Lemma closing_returned {A} (body : M A) s a w c t :
  body s = Returned a (State w c t) →
  closing body s = Returned a (State w (Connection None false) (t ++ [Close])).
Proof. intros H. unfold closing. by rewrite H. Qed.

Lemma closing_raised {A} (body : M A) s e w c t :
  body s = Raised e (State w c t) →
  closing body s = Raised e (State w (Connection None false) (t ++ [Close])).
Proof. intros H. unfold closing. by rewrite H. Qed.

Lemma fetch_notes_eq w d X fk t :
  fetch_notes (State (set_db_file (Some d) w) (Connection (Some X) fk) t) =
  Returned (select_notes X) (State (set_db_file (Some d) w) (Connection (Some X) fk) t).
Proof. reflexivity. Qed.

Lemma read_migration_eq w d c t :
  read_migration (State (set_db_file (Some d) w) c t) =
  match migration_file w with
  | Some script =>
      Returned script (State (set_db_file (Some d) w) c (t ++ [Open NOTES_MIGRATION_FILE "r"]))
  | None =>
      Raised (FileNotFoundError
                ("[Errno 2] No such file or directory: '" +:+ NOTES_MIGRATION_FILE +:+ "'"))
             (State (set_db_file (Some d) w) c (t ++ [Open NOTES_MIGRATION_FILE "r"]))
  end.
Proof. reflexivity. Qed.

Lemma conn_executescript_eq script w d X fk t :
  conn_executescript script (State (set_db_file (Some d) w) (Connection (Some X) fk) t) =
  match exec_script script (X, Connection None fk) with
  | (e, None) =>
      Returned () (State (set_db_file (Some e.1) w) e.2 (t ++ [Executescript script]))
  | (e, Some msg) =>
      Raised (OperationalError msg)
             (State (set_db_file (Some e.1) w) e.2 (t ++ [Executescript script]))
  end.
Proof. reflexivity. Qed.

(** The migration step, case by case. *)
Lemma notes_migration_eq w d X fk t :
  notes_migration (State (set_db_file (Some d) w) (Connection (Some X) fk) t) =
  let t1 := t ++ [Execute SELECT_notes] in
  match select_notes X with
  | Some _ => Returned false (State (set_db_file (Some d) w) (Connection (Some X) fk) t1)
  | None =>
      let t2 := t1 ++ [Open NOTES_MIGRATION_FILE "r"] in
      match migration_file w with
      | None =>
          Raised (FileNotFoundError
                    ("Required migration not found: " +:+ NOTES_MIGRATION_FILE))
                 (State (set_db_file (Some d) w) (Connection (Some X) fk) t2)
      | Some script =>
          match exec_script script (X, Connection None fk) with
          | (e, None) =>
              Returned true (State (set_db_file (Some e.1) w) e.2
                                   (t2 ++ [Executescript script]))
          | (e, Some msg) =>
              Raised (OperationalError msg)
                     (State (set_db_file (Some e.1) w) e.2
                            (t2 ++ [Executescript script]))
          end
      end
  end.
Proof.
  unfold notes_migration.
  erewrite bind_returned;
    [|apply (cursor_execute_ok _ _ _ _ _ (d, Connection (Some X) fk)); reflexivity].
  cbn [fst snd].
  erewrite bind_returned; [|by apply fetch_notes_eq].
  cbv zeta. destruct (select_notes X) as [n|]; [reflexivity|].
  change (negb (bool_decide (is_Some (@None string)))) with true. cbv iota.
  unfold try_except_FileNotFoundError.
  destruct (migration_file w) as [script|] eqn:Hm.
  - erewrite bind_returned; [|by rewrite read_migration_eq, Hm].
    destruct (exec_script script (X, Connection None fk)) as [e [msg|]] eqn:He.
    + erewrite bind_raised; [|by rewrite conn_executescript_eq, He]. reflexivity.
    + erewrite bind_returned; [|by rewrite conn_executescript_eq, He]. reflexivity.
  - erewrite bind_raised; [|by rewrite read_migration_eq, Hm]. reflexivity.
Qed.

Lemma database_block_spec w c t :
  database_block (State w c t) = block_outcome w t.
Proof.
  unfold database_block, block_outcome.
  erewrite bind_returned; [|reflexivity].
  set (d := on_disk w). set (now := CURRENT_TIMESTAMP w).
  change (set_db_file (Some (on_disk (files (State w c t)))) (files (State w c t)))
    with (set_db_file (Some d) w).
  change (trace (State w c t)) with t.
  destruct (schema_and_seed_spec w d false (t ++ [Connect DB_NAME])) as [c' Hs].
  fold now in Hs. revert Hs.
  destruct (prepared now d) as [sd|msg] eqn:Hp; intros Hs.
  2:{ eapply closing_raised. erewrite bind_raised; [|exact Hs].
      rewrite <- (assoc_L (++)). reflexivity. }
  apply prepared_seeded in Hp as (_&->&Ha). rewrite Ha in Hs.
  change (Execute PRAGMA_foreign_keys_ON :: Execute SQL_BEGIN :: (Execute <$> SETUP))
    with seed_events in Hs.
  unfold block_after_seed.
  pose proof (notes_migration_eq w d (seeded now d) true
                ((t ++ [Connect DB_NAME]) ++ seed_events)) as Hn.
  cbv zeta in Hn |- *.
  replace (t ++ Connect DB_NAME :: seed_events ++ [Execute SELECT_notes])
    with (((t ++ [Connect DB_NAME]) ++ seed_events) ++ [Execute SELECT_notes])
    by (by rewrite <- !(assoc_L (++))).
  destruct (select_notes (seeded now d)) as [n|].
  { eapply closing_returned.
    erewrite bind_returned; [|exact Hs].
    erewrite bind_returned; [|apply Hn].
    erewrite bind_returned; [|apply commit_and_count_open]. reflexivity. }
  destruct (migration_file w) as [script|].
  2:{ eapply closing_raised.
      erewrite bind_returned; [|exact Hs].
      erewrite bind_raised; [|apply Hn]. reflexivity. }
  destruct (exec_script script (seeded now d, Connection None true))
    as [[d' [[p|] fk]] [msg|]].
  - eapply closing_raised.
    erewrite bind_returned; [|exact Hs].
    erewrite bind_raised; [|apply Hn]. reflexivity.
  - eapply closing_returned.
    erewrite bind_returned; [|exact Hs].
    erewrite bind_returned; [|apply Hn].
    erewrite bind_returned; [|apply commit_and_count_open]. reflexivity.
  - eapply closing_raised.
    erewrite bind_returned; [|exact Hs].
    erewrite bind_raised; [|apply Hn]. reflexivity.
  - eapply closing_raised.
    erewrite bind_returned; [|exact Hs].
    erewrite bind_returned; [|apply Hn].
    erewrite bind_raised; [|apply commit_and_count_idle]. reflexivity.
Qed.

Ltac run_report :=
  cbv beta iota zeta delta
    [report mbind M_bind mret M_ret try_except print log raise final_state
     os_getcwd os_path_abspath os_path_exists_db_visualizer
     os_makedirs_db_visualizer write_db_connection_txt write_sqlite_env
     files conn trace negb
     cwd db_file migration_file db_visualizer deny_db_connection_txt
     deny_db_visualizer deny_sqlite_env
     set_db_connection_txt set_db_visualizer set_sqlite_env
     CURRENT_TIMESTAMP migrations_dir db_connection_txt sqlite_env].

Lemma report_frame dbe cn tc rc w c t :
  ∃ w' evs,
    final_state (report dbe cn tc rc (State w c t)) = State w' c (t ++ evs)
    ∧ same_inputs w w'
    ∧ Forall auxiliary evs.
Proof.
  destruct w as [cw now md f mf ct dv se [m1|] [m2|] [m3|]]; destruct dv;
    run_report; rewrite <- ?(assoc_L (++)); simpl app;
    do 2 eexists; (split; [reflexivity|]);
    (split; [by repeat split|]);
    repeat (apply List.Forall_cons;
            [first [exact I | reflexivity | left; reflexivity | right; reflexivity]|]);
    apply List.Forall_nil.
Qed.

Lemma run_eq w :
  run w =
  match block_outcome (set_migrations_dir true w)
          [ Print "Starting SQLite setup..."; Makedirs MIGRATIONS_DIR;
            Print (if bool_decide (is_Some (db_file w))
                   then "SQLite database already exists at " +:+ DB_NAME
                   else "Creating new SQLite database...") ] with
  | Returned (created_notes, table_count, record_count) s =>
      report (bool_decide (is_Some (db_file w))) created_notes table_count record_count s
  | Raised e s => Raised e s
  end.
Proof.
  unfold run, main.
  erewrite bind_returned; [|reflexivity].
  erewrite bind_returned; [|reflexivity].
  erewrite bind_returned; [|reflexivity].
  change (db_file (files _)) with (db_file w).
  destruct (bool_decide (is_Some (db_file w)));
    (erewrite bind_returned; [|reflexivity]);
    unfold mbind at 1, M_bind at 1;
    cbv beta iota delta [log files conn trace]; cbn [app];
    rewrite database_block_spec;
    destruct (block_outcome _ _) as [[[cn tc] rc] s|e s]; reflexivity.
Qed.


(** *** The catalog *)

Lemma elem_of_name_if {A} (t : option A) n name :
  name ∈ name_if t n ↔ name = n ∧ is_Some t.
Proof.
  destruct t; simpl.
  - rewrite list_elem_of_singleton. split; [eauto|]. by intros [? _].
  - split; [by intros ?%elem_of_nil|]. by intros [_ ?%is_Some_None].
Qed.

Lemma elem_of_table_names name db :
  name ∈ table_names db ↔
    (name = "app_info" ∧ is_Some (app_info db))
    ∨ (name = "users" ∧ is_Some (users db))
    ∨ (name = "sqlite_sequence" ∧ is_Some (sqlite_sequence db))
    ∨ is_Some (tables db !! name).
Proof.
  unfold table_names. rewrite !elem_of_app, !elem_of_name_if.
  assert (name ∈ (map_to_list (tables db)).*1 ↔ is_Some (tables db !! name)) as ->;
    [|tauto].
  rewrite list_elem_of_fmap. split.
  - intros [[k v] [-> H%elem_of_map_to_list]]. eauto.
  - intros [v H]. exists (name, v). by rewrite elem_of_map_to_list.
Qed.

Lemma notes_in_table_names db :
  "notes" ∈ table_names db ↔ is_Some (tables db !! "notes").
Proof.
  rewrite elem_of_table_names. split; [|tauto].
  intros [[? _]|[[? _]|[[? _]|?]]]; by try discriminate.
Qed.

Lemma select_notes_Some db :
  is_Some (select_notes db) ↔ "notes" ∈ table_names db.
Proof.
  unfold select_notes. split.
  - intros [n H]. apply head_Some in H as [l H].
    assert (Hin : n ∈ filter (λ n, n = "notes") (table_names db))
      by (rewrite H; left).
    apply list_elem_of_filter in Hin as [-> ?]. done.
  - intros Hin.
    assert (Hf : "notes" ∈ filter (λ n, n = "notes") (table_names db))
      by (by apply list_elem_of_filter).
    destruct (filter _ _) as [|x l]; [by apply elem_of_nil in Hf|]. by eexists.
Qed.

Lemma select_notes_None db :
  select_notes db = None ↔ "notes" ∉ table_names db.
Proof. rewrite <- select_notes_Some, eq_None_not_Some. done. Qed.

Lemma elem_of_index_names name db :
  name ∈ index_names db ↔ is_Some (indexes db !! name).
Proof.
  unfold index_names. rewrite list_elem_of_fmap. split.
  - intros [[k v] [-> H%elem_of_map_to_list]]. eauto.
  - intros [v H]. exists (name, v). by rewrite elem_of_map_to_list.
Qed.

(** A name that designates none of [names] is not among them. *)
Lemma find_name_None name names : find_name name names = None → name ∉ names.
Proof.
  unfold find_name. intros H Hin.
  assert (Hf : name ∈ filter (λ n, string_lower n = string_lower name) names)
    by (by apply list_elem_of_filter).
  destruct (filter _ names); [by apply elem_of_nil in Hf|done].
Qed.

(** *** The engine only adds migration tables and indexes *)

Lemma extends_refl d : extends d d.
Proof. by repeat split. Qed.

Lemma extends_trans d1 d2 d3 : extends d1 d2 → extends d2 d3 → extends d1 d3.
Proof.
  intros (?&?&?&?&?) (?&?&?&?&?).
  repeat split; try congruence; by etrans.
Qed.

Lemma create_table_extends ine name cols d d' :
  create_table ine name cols d = inl d' → extends d d'.
Proof.
  unfold create_table. intros H.
  destruct cols as [|c cols]; [done|].
  destruct (reserved_name name); [done|].
  destruct (find_name name (table_names d)) eqn:Hn.
  { destruct ine; [|done]. injection H as <-. apply extends_refl. }
  destruct (find_name name (index_names d)); [done|].
  destruct (duplicate_column [] (c :: cols)); [done|]. injection H as <-.
  repeat split; simpl; try done.
  apply insert_subseteq. apply eq_None_not_Some. intros Hs.
  apply find_name_None in Hn. apply Hn, elem_of_table_names. tauto.
Qed.

Lemma create_index_extends ine name table d d' :
  create_index ine name table d = inl d' → extends d d'.
Proof.
  unfold create_index. intros H.
  destruct (find_name table (table_names d)) as [stored|]; [|done].
  destruct (reserved_name stored); [done|]. destruct (reserved_name name); [done|].
  destruct (find_name name (table_names d)); [done|].
  destruct (find_name name (index_names d)) eqn:Hn.
  { destruct ine; [|done]. injection H as <-. apply extends_refl. }
  injection H as <-.
  repeat split; simpl; try done.
  apply insert_subseteq. apply eq_None_not_Some. intros Hs.
  apply find_name_None in Hn. by apply Hn, elem_of_index_names.
Qed.

Lemma update_grows f d e e' :
  (∀ x x', f x = inl x' → extends x x') →
  grows_from d e → update f e = inl e' → grows_from d e'.
Proof.
  intros Hf [Hd Hp]. unfold update, store, view.
  destruct e as [disk [[p|] fk]]; simpl in *.
  - destruct (f p) as [x'|] eqn:Hx; [|done]. intros [= <-]. split; [done|].
    simpl. intros ? [= <-]. eapply extends_trans; eauto.
  - destruct (f disk) as [x'|] eqn:Hx; [|done]. intros [= <-]. split; simpl.
    + eapply extends_trans; eauto.
    + done.
Qed.

Lemma exec_stmt_grows st d e e' :
  grows_from d e → exec_stmt st e = inl e' → grows_from d e'.
Proof.
  intros Hg. destruct st as [| |ine name cols|ine name table|message]; simpl.
  - unfold begin. destruct Hg as [Hd Hp]. destruct e as [disk [[p|] fk]]; simpl in *;
      [done|]. intros [= <-]. split; [done|]. simpl. intros ? [= <-]. apply extends_refl.
  - unfold commit. destruct Hg as [Hd Hp]. destruct e as [disk [[p|] fk]]; simpl in *;
      [|done]. intros [= <-]. split; [|done]. simpl. eapply extends_trans; eauto.
  - apply update_grows; [|done]. apply create_table_extends.
  - apply update_grows; [|done]. apply create_index_extends.
  - done.
Qed.

Lemma exec_script_grows script d e :
  grows_from d e → grows_from d (exec_script script e).1.
Proof.
  revert e. induction script as [|st rest IH]; intros e Hg; simpl; [done|].
  destruct (exec_stmt st e) as [e'|msg] eqn:He; [|done].
  apply IH. eapply exec_stmt_grows; eauto.
Qed.

Lemma grows_from_start d fk : grows_from d (d, Connection None fk).
Proof. split; [apply extends_refl|done]. Qed.

(** *** The seeded database *)

Lemma upsert_frame now db kv :
  users (upsert now db kv) = users db
  ∧ tables (upsert now db kv) = tables db
  ∧ indexes (upsert now db kv) = indexes db
  ∧ (is_Some (sqlite_sequence db) → is_Some (sqlite_sequence (upsert now db kv))).
Proof.
  unfold upsert, put_row. destruct (app_info db); simpl; eauto.
Qed.


Lemma seeded_frame now d :
  user_rows (seeded now d) = user_rows d
  ∧ tables (seeded now d) = tables d
  ∧ indexes (seeded now d) = indexes d.
Proof.
  unfold seeded.
  assert (H : ∀ l db, users (foldl (upsert now) db l) = users db
                      ∧ tables (foldl (upsert now) db l) = tables db
                      ∧ indexes (foldl (upsert now) db l) = indexes db).
  { induction l as [|kv l IH]; intros db; simpl; [done|].
    destruct (IH (upsert now db kv)) as (->&->&->).
    destruct (upsert_frame now db kv) as (->&->&->&_). done. }
  destruct (H SEED (base d)) as (Hu&->&->).
  unfold user_rows at 1. rewrite Hu.
  split; [apply user_rows_base|apply tables_base].
Qed.

Lemma upsert_sequence now db kv :
  is_Some (app_info db) → is_Some (sqlite_sequence (upsert now db kv)).
Proof.
  intros [rows H]. unfold upsert, put_row. rewrite H. by eexists.
Qed.

Lemma seeded_present now d :
  is_Some (app_info (seeded now d)) ∧ is_Some (users (seeded now d))
  ∧ is_Some (sqlite_sequence (seeded now d)).
Proof.
  destruct (base_present d) as [Ha Hu].
  unfold seeded, SEED. cbn [foldl].
  split; [by repeat apply app_info_upsert|].
  split; [|by apply upsert_sequence; repeat apply app_info_upsert].
  by repeat (rewrite (proj1 (upsert_frame _ _ _))).
Qed.

Lemma rows_with_key_upsert key now db kv :
  is_Some (app_info db) →
  rows_with_key key (rows_of (upsert now db kv)) =
  if decide (key = kv.1)
  then [AppInfoRow (next_id db (rows_of db)) kv.1 (Some kv.2) now]
  else rows_with_key key (rows_of db).
Proof.
  intros H. rewrite upsert_rows by done. unfold rows_with_key.
  set (new := AppInfoRow _ _ _ _). rewrite filter_app.
  generalize (rows_of db). intros rows.
  case_decide as Hk.
  - subst key. rewrite filter_cons_True by done. rewrite filter_nil.
    replace (filter _ (filter _ rows)) with (@nil app_info_row); [done|].
    induction rows as [|r rows IH]; [done|].
    rewrite (filter_cons (λ r, ai_key r ≠ kv.1)). case_decide; [|done].
    by rewrite filter_cons_False.
  - rewrite filter_cons_False by (simpl; congruence). rewrite filter_nil, app_nil_r.
    induction rows as [|r rows IH]; [done|].
    rewrite (filter_cons (λ r, ai_key r ≠ kv.1)), (filter_cons (λ r, ai_key r = key) r rows).
    repeat case_decide; try congruence.
    + rewrite filter_cons_True by done. by rewrite IH.
    + by rewrite filter_cons_False.
Qed.

Lemma foldl_other_keys now key l db :
  is_Some (app_info db) → key ∉ l.*1 →
  rows_with_key key (rows_of (foldl (upsert now) db l)) = rows_with_key key (rows_of db).
Proof.
  revert db. induction l as [|kv l IH]; intros db Hs Hk; simpl; [done|].
  rewrite fmap_cons, not_elem_of_cons in Hk. destruct Hk as [Hk1 Hk2].
  rewrite IH by (by try apply app_info_upsert).
  rewrite rows_with_key_upsert by done. by rewrite decide_False.
Qed.

Lemma foldl_seed_ok now l db :
  is_Some (app_info db) → NoDup l.*1 →
  ∀ key value, (key, value) ∈ l →
    ∃ r, rows_with_key key (rows_of (foldl (upsert now) db l)) = [r]
         ∧ ai_value r = Some value.
Proof.
  revert db. induction l as [|kv l IH]; intros db Hs Hnd key value Hin;
    [by apply elem_of_nil in Hin|].
  rewrite fmap_cons in Hnd. apply NoDup_cons in Hnd as [Hk Hnd].
  simpl. apply elem_of_cons in Hin as [<-|Hin].
  - rewrite foldl_other_keys by (by try apply app_info_upsert).
    rewrite rows_with_key_upsert by done. rewrite decide_True by done. eauto.
  - apply IH; [by apply app_info_upsert|done|done].
Qed.

Lemma seeded_seed_ok now d : seed_ok (seeded now d).
Proof.
  unfold seed_ok, seeded. apply foldl_seed_ok; [apply app_info_base|].
  apply (bool_decide_unpack _). by vm_compute.
Qed.

Lemma foldl_keeps_keys now l db r :
  r ∈ rows_of db →
  ∃ r', r' ∈ rows_of (foldl (upsert now) db l) ∧ ai_key r' = ai_key r.
Proof.
  revert db r. induction l as [|kv l IH]; intros db r Hin; simpl; [eauto|].
  assert (Hs : is_Some (app_info db)).
  { unfold rows_of in Hin. destruct (app_info db); [eauto|by apply elem_of_nil in Hin]. }
  destruct (decide (ai_key r = kv.1)) as [Hk|Hk].
  - destruct (IH (upsert now db kv)
                 (AppInfoRow (next_id db (rows_of db)) kv.1 (Some kv.2) now))
      as (r'&?&Hr').
    { rewrite upsert_rows by done. apply elem_of_app. right. left. }
    exists r'. split; [done|]. by rewrite Hr', Hk.
  - apply IH. rewrite upsert_rows by done. apply elem_of_app. left.
    by apply list_elem_of_filter.
Qed.

Lemma foldl_keeps_others now l db r :
  r ∈ rows_of db → ai_key r ∉ l.*1 → r ∈ rows_of (foldl (upsert now) db l).
Proof.
  revert db. induction l as [|kv l IH]; intros db Hin Hk; simpl; [done|].
  rewrite fmap_cons, not_elem_of_cons in Hk. destruct Hk as [Hk1 Hk2].
  assert (Hs : is_Some (app_info db)).
  { unfold rows_of in Hin. destruct (app_info db); [eauto|by apply elem_of_nil in Hin]. }
  apply IH; [|done]. rewrite upsert_rows by done. apply elem_of_app. left.
  by apply list_elem_of_filter.
Qed.

(** *** What a run leaves on disk *)

Lemma notes_seeded now d :
  "notes" ∈ table_names (seeded now d) ↔ "notes" ∈ table_names d.
Proof.
  rewrite !notes_in_table_names.
  destruct (seeded_frame now d) as (_&->&_). done.
Qed.

Lemma stdout_elem line s : line ∈ stdout s ↔ Print line ∈ trace s.
Proof.
  unfold stdout. rewrite list_elem_of_omap. split.
  - intros (ev&Hin&Hev). destruct ev; try discriminate. by injection Hev as ->.
  - intros Hin. by exists (Print line).
Qed.

Lemma run_preamble w :
  run w =
  match block_outcome (set_migrations_dir true w)
          (preamble (bool_decide (is_Some (db_file w)))) with
  | Returned (created_notes, table_count, record_count) s =>
      report (bool_decide (is_Some (db_file w))) created_notes table_count record_count s
  | Raised e s => Raised e s
  end.
Proof. exact (run_eq w). Qed.


Lemma early_trace_early w : Forall early_event (early_trace w).
Proof.
  unfold early_trace. rewrite !Forall_app. split; [split|].
  - unfold preamble. destruct (bool_decide (is_Some (db_file w)));
      repeat constructor.
  - constructor; [done|]. constructor; [by left|].
    constructor; [by right; left|].
    apply Forall_fmap, Forall_forall. intros q Hq%attempted_setup.
    cbn. tauto.
  - by repeat constructor.
Qed.

(** A run, outcome by outcome: lines 48-73 pass and the run goes on
    from the seeded working copy, or one of them fails and the run ends
    there with the file as it was. *)
Lemma run_seedable w :
  seedable (on_disk w) →
  run w =
  match block_after_seed (set_migrations_dir true w)
          (seeded (CURRENT_TIMESTAMP w) (on_disk w))
          (preamble (bool_decide (is_Some (db_file w)))) with
  | Returned (created_notes, table_count, record_count) s =>
      report (bool_decide (is_Some (db_file w))) created_notes table_count record_count s
  | Raised e s => Raised e s
  end.
Proof.
  intros Hs. rewrite run_preamble. unfold block_outcome.
  change (CURRENT_TIMESTAMP (set_migrations_dir true w)) with (CURRENT_TIMESTAMP w).
  change (on_disk (set_migrations_dir true w)) with (on_disk w).
  by destruct (seedable_prepared (CURRENT_TIMESTAMP w) (on_disk w) Hs) as [-> _].
Qed.

Lemma run_prepared_inr w msg :
  prepared (CURRENT_TIMESTAMP w) (on_disk w) = inr msg →
  run w = Raised (OperationalError msg)
            (State (set_db_file (Some (on_disk w)) (set_migrations_dir true w))
                   (Connection None false) (early_trace w)).
Proof.
  intros Hp. rewrite run_preamble. unfold block_outcome.
  change (CURRENT_TIMESTAMP (set_migrations_dir true w)) with (CURRENT_TIMESTAMP w).
  change (on_disk (set_migrations_dir true w)) with (on_disk w).
  rewrite Hp. reflexivity.
Qed.

Lemma run_cases w :
  (seedable (on_disk w) ∧ prepared (CURRENT_TIMESTAMP w) (on_disk w)
                          = inl (seeded (CURRENT_TIMESTAMP w) (on_disk w)))
  ∨ (¬ seedable (on_disk w)
     ∧ ∃ msg, prepared (CURRENT_TIMESTAMP w) (on_disk w) = inr msg
              ∧ run w = Raised (OperationalError msg)
                          (State (set_db_file (Some (on_disk w)) (set_migrations_dir true w))
                                 (Connection None false) (early_trace w))).
Proof.
  destruct (prepared_cases (CURRENT_TIMESTAMP w) (on_disk w))
    as [(Hs&Hp&_)|(Hn&msg&Hp&_)].
  - by left.
  - right. split; [done|]. exists msg. split; [done|]. by apply run_prepared_inr.
Qed.

Lemma block_after_seed_closed w sd t :
  ∃ db t', final_state (block_after_seed w sd t) = closed w db t'.
Proof.
  unfold block_after_seed, counted. cbv zeta.
  destruct (select_notes _); [by eexists _, _|].
  destruct (migration_file w) as [script|]; [|by eexists _, _].
  destruct (exec_script _ _) as [e [msg|]]; [by eexists _, _|].
  destruct (pending e.2); by eexists _, _.
Qed.

Lemma block_outcome_closed w t :
  ∃ db t', final_state (block_outcome w t) = closed w db t'.
Proof.
  unfold block_outcome. destruct (prepared _ _); [apply block_after_seed_closed|].
  by eexists _, _.
Qed.

Lemma after_run_frame w :
  migration_file (after_run w) = migration_file w
  ∧ cwd (after_run w) = cwd w
  ∧ CURRENT_TIMESTAMP (after_run w) = CURRENT_TIMESTAMP w.
Proof.
  unfold after_run. rewrite run_preamble.
  destruct (block_outcome_closed (set_migrations_dir true w)
              (preamble (bool_decide (is_Some (db_file w)))))
    as (db&t'&Hc).
  destruct (block_outcome _ _) as [[[cn tc] rc] s|e s]; simpl in Hc; subst s.
  - unfold closed.
    destruct (report_frame (bool_decide (is_Some (db_file w))) cn tc rc
                (set_db_file (Some db) (set_migrations_dir true w))
                (Connection None false) (t' ++ [Close]))
      as (w'&evs&->&(?&?&_&_&?&_)&_). done.
  - done.
Qed.

(** A run leaves the database as it found it (a statement of lines
    48-73 fails, or the migration file is missing and needed) or leaves
    the seeded database, with whatever tables and indexes the migration
    added. *)
Lemma after_run_cases w :
  (db_file (after_run w) = Some (on_disk w)
   ∧ (¬ seedable (on_disk w)
      ∨ ("notes" ∉ table_names (on_disk w)) ∧ migration_file w = None))
  ∨ (seedable (on_disk w) ∧ past_migration w
     ∧ ∃ d', db_file (after_run w) = Some d'
             ∧ extends (seeded (CURRENT_TIMESTAMP w) (on_disk w)) d').
Proof.
  unfold after_run.
  destruct (run_cases w) as [[Hs _]|(Hn&msg&_&->)]; [|left; split; [reflexivity|by left]].
  rewrite (run_seedable w Hs). unfold block_after_seed, counted. cbv zeta.
  change (on_disk (set_migrations_dir true w)) with (on_disk w).
  change (migration_file (set_migrations_dir true w)) with (migration_file w).
  set (sd := seeded (CURRENT_TIMESTAMP w) (on_disk w)).
  set (dbe := bool_decide (is_Some (db_file w))).
  assert (Hret : ∀ cn tc rc db t,
            ∃ d', db_file (files (final_state
                     (report dbe cn tc rc
                        (closed (set_migrations_dir true w) db t)))) = Some d'
                  ∧ d' = db).
  { intros cn tc rc db t. unfold closed.
    destruct (report_frame dbe cn tc rc
                (set_db_file (Some db) (set_migrations_dir true w))
                (Connection None false) (t ++ [Close]))
      as (w'&evs&->&(_&_&_&Hdb&_)&_). exists db. simpl. by rewrite Hdb. }
  destruct (select_notes sd) as [n|] eqn:Hn.
  { right. split; [done|]. split.
    - left. apply (notes_seeded (CURRENT_TIMESTAMP w)), select_notes_Some. by eexists.
    - match goal with
      | |- context [report dbe ?cn ?tc ?rc (closed _ ?db ?t)] =>
          destruct (Hret cn tc rc db t) as (d'&Hd&->)
      end.
      exists sd. split; [exact Hd|apply extends_refl]. }
  apply select_notes_None in Hn. unfold sd in Hn.
  rewrite (notes_seeded (CURRENT_TIMESTAMP w)) in Hn.
  destruct (migration_file w) as [script|] eqn:Hm;
    [right|left; split; [reflexivity|by right]].
  split; [done|]. split; [right; by eexists|].
  pose proof (exec_script_grows script sd _ (grows_from_start sd true)) as [Hg Hp].
  destruct (exec_script script (sd, Connection None true)) as [e [msg|]];
    [by exists e.1|].
  simpl in Hg, Hp. destruct (pending e.2) as [p|]; [|by exists e.1].
  match goal with
  | |- context [report dbe ?cn ?tc ?rc (closed _ ?db ?t)] =>
      destruct (Hret cn tc rc db t) as (d'&Hd&->)
  end.
  exists p. split; [exact Hd|]. eapply extends_trans; eauto.
Qed.

Lemma count_app_info_length db :
  match count_app_info db with inl n => n | inr _ => 0 end = length (rows_of db).
Proof. unfold count_app_info, rows_of. by destruct (app_info db). Qed.

Lemma on_disk_after w d : db_file (after_run w) = Some d → on_disk (after_run w) = d.
Proof. intros H. unfold on_disk. by rewrite H. Qed.

(* ===================================================================== *)
(** ** The properties of the specification *)
(* ===================================================================== *)

(** [H : x ∈ [a; b; ...]] is split into its cases, each closed by [tac]. *)
Ltac elem_cases H tac :=
  repeat (apply elem_of_cons in H as [H|H]; [tac|]);
  by apply elem_of_nil in H.

(** What the trace of a run that stops in lines 48-73 does not hold. *)
Lemma early_trace_facts w c :
  let s := State (set_db_file (Some (on_disk w)) (set_migrations_dir true w))
                 c (early_trace w) in
  (Execute SQL_COMMIT ∉ trace s)
  ∧ (Execute SELECT_notes ∉ trace s)
  ∧ (∀ script, Executescript script ∉ trace s)
  ∧ (∀ path mode, Open path mode ∉ trace s)
  ∧ ¬ reports_status s.
Proof.
  cbv zeta. cbn [trace].
  pose proof (early_trace_early w) as He. rewrite Forall_forall in He.
  split; [|split; [|split; [|split]]].
  - intros H%He. by destruct H as [?|[?|?]].
  - intros H%He. by destruct H as [?|[?|?]].
  - intros script H%He. exact H.
  - intros path mode H%He. exact H.
  - intros (line&Hin&Hp). apply stdout_elem in Hin. cbn [trace] in Hin.
    apply He in Hin. cbn in Hin. congruence.
Qed.

(** C1, as the script has it. When the database has no table named
    notes and the migration file is absent, the run ends on an uncaught
    exception, the exit status is 1, COMMIT is never executed and
    neither is any script, no status line is printed, and the file
    holds the database it held before: nothing of the run is committed,
    and there is no notes table. When lines 48-73 pass, the exception is
    the one whose message names migrations/001_create_notes.sql
    (Python's FileNotFoundError, which the specification calls
    MigrationNotFoundError); when one of them fails, the run ends there
    on the engine's OperationalError. *)
Theorem missing_migration_is_fatal w :
  migration_file w = None →
  "notes" ∉ table_names (on_disk w) →
  ∃ e s, run w = Raised e s
       ∧ exit_code (run w) = 1
       ∧ (seedable (on_disk w) →
            e = FileNotFoundError
                  "Required migration not found: migrations/001_create_notes.sql")
       ∧ (¬ seedable (on_disk w) → ∃ msg, e = OperationalError msg)
       ∧ (Execute SQL_COMMIT ∉ trace s)
       ∧ (∀ script, Executescript script ∉ trace s)
       ∧ ¬ reports_status s
       ∧ db_file (files s) = Some (on_disk w)
       ∧ ("notes" ∉ table_names (on_disk (files s))).
Proof.
  intros Hm Hn0.
  destruct (run_cases w) as [[Hs _]|(Hns&msg&_&Hr)].
  - rewrite (run_seedable w Hs). unfold block_after_seed. cbv zeta.
    change (on_disk (set_migrations_dir true w)) with (on_disk w).
    change (migration_file (set_migrations_dir true w)) with (migration_file w).
    pose proof Hn0 as Hn.
    rewrite <- (notes_seeded (CURRENT_TIMESTAMP w)), <- select_notes_None in Hn.
    rewrite Hn, Hm. eexists _, _. split; [reflexivity|]. split; [reflexivity|].
    split; [reflexivity|]. split; [intros Hc; by destruct (Hc Hs)|].
    split; [|split; [|split; [|split; [reflexivity|exact Hn0]]]].
    + destruct (bool_decide (is_Some (db_file w)));
        cbv [closed trace preamble seed_events app]; intros H;
        elem_cases H ltac:(discriminate H).
    + destruct (bool_decide (is_Some (db_file w)));
        cbv [closed trace preamble seed_events app]; intros script H;
        elem_cases H ltac:(discriminate H).
    + destruct (bool_decide (is_Some (db_file w)));
        intros (line & H & Hp); vm_compute in H;
        elem_cases H ltac:(subst line; vm_compute in Hp; discriminate Hp).
  - rewrite Hr. eexists _, _. split; [reflexivity|]. split; [reflexivity|].
    split; [intros Hs; by destruct (Hns Hs)|]. split; [intros _; by eexists|].
    destruct (early_trace_facts w (Connection None false)) as (H1&_&H2&_&H4).
    split; [exact H1|]. split; [exact H2|]. split; [exact H4|].
    split; [reflexivity|exact Hn0].
Qed.

Lemma missing_migration_is_fatal_witness :
  ∃ e s, run scenario_c = Raised e s
       ∧ exit_code (run scenario_c) = 1
       ∧ (seedable (on_disk scenario_c) →
            e = FileNotFoundError
                  "Required migration not found: migrations/001_create_notes.sql")
       ∧ (¬ seedable (on_disk scenario_c) → ∃ msg, e = OperationalError msg)
       ∧ (Execute SQL_COMMIT ∉ trace s)
       ∧ (∀ script, Executescript script ∉ trace s)
       ∧ ¬ reports_status s
       ∧ db_file (files s) = Some (on_disk scenario_c)
       ∧ ("notes" ∉ table_names (on_disk (files s))).
Proof.
  apply (missing_migration_is_fatal scenario_c); [reflexivity|].
  apply (bool_decide_unpack _). vm_compute. exact I.
Defined.

(** C1 as stated fails: in a directory without migration file whose
    database has no notes table and whose app_info holds a row under the
    largest rowid, the run ends at line 66 on OperationalError "database
    or disk is full", not on the error that names the migration file. *)
Lemma missing_migration_counterexample :
  migration_file scenario_full = None
  ∧ ("notes" ∉ table_names (on_disk scenario_full))
  ∧ (∃ s, run scenario_full = Raised (OperationalError "database or disk is full") s
          ∧ last (removelast (trace s))
            = Some (Execute (INSERT_OR_REPLACE "project_name" "notes_database")))
  ∧ ¬ ∃ msg s, run scenario_full = Raised (FileNotFoundError msg) s.
Proof.
  assert (E : ∃ s, run scenario_full
                   = Raised (OperationalError "database or disk is full") s
                   ∧ last (removelast (trace s))
                     = Some (Execute (INSERT_OR_REPLACE "project_name" "notes_database")))
    by (eexists; split; vm_compute; reflexivity).
  split; [reflexivity|].
  split; [apply (bool_decide_unpack _); vm_compute; exact I|].
  split; [exact E|].
  destruct E as (s0&E&_). intros (msg&s&H). rewrite E in H. discriminate H.
Qed.

Lemma auxiliary_not_migration ev : auxiliary ev → touches_migration ev = false.
Proof. destruct ev; simpl; try done. by intros [->| ->]. Qed.

Lemma report_with_migration m dbe cn tc rc w c t :
  report dbe cn tc rc (State (set_migration_file m w) c t)
  = with_migration m (report dbe cn tc rc (State w c t)).
Proof.
  destruct w as [cw now md f mf ct dv se [m1|] [m2|] [m3|]]; destruct dv;
    reflexivity.
Qed.

Lemma early_not_migration ev : early_event ev → touches_migration ev = false.
Proof. by destruct ev. Qed.

(** C4. When a table named notes is in the catalog at the check, no
    event of the run opens the migration file or executes a script; the
    run is the same whatever the migration file holds, absent or not;
    and the run leaves the migration tables, the notes table among
    them, and the indexes exactly as they were. *)
Theorem migration_gating w :
  "notes" ∈ table_names (on_disk w) →
  (∀ ev, ev ∈ trace (final_state (run w)) → touches_migration ev = false)
  ∧ (∀ m, run (set_migration_file m w) = with_migration m (run w))
  ∧ tables (on_disk (after_run w)) = tables (on_disk w)
  ∧ indexes (on_disk (after_run w)) = indexes (on_disk w).
Proof.
  intros Hn.
  destruct (run_cases w) as [[Hsd _]|(Hns&msg&Hp&Hr)].
  2:{ split; [|split].
      - rewrite Hr. cbn [final_state trace]. intros ev Hin.
        apply early_not_migration.
        pose proof (early_trace_early w) as He. rewrite Forall_forall in He.
        by apply He.
      - intros m. rewrite Hr.
        rewrite (run_prepared_inr (set_migration_file m w) msg Hp). reflexivity.
      - unfold after_run. rewrite Hr. by split. }
  assert (Hs : ∃ n, select_notes (seeded (CURRENT_TIMESTAMP w) (on_disk w)) = Some n).
  { apply select_notes_Some. by apply notes_seeded. }
  destruct Hs as [n Hs].
  assert (Hrun : ∀ m, run (set_migration_file m w) =
    report (bool_decide (is_Some (db_file w))) false
      (count_user_tables (seeded (CURRENT_TIMESTAMP w) (on_disk w)))
      (match count_app_info (seeded (CURRENT_TIMESTAMP w) (on_disk w)) with
       | inl n => n | inr _ => 0 end)
      (State (set_migration_file m
                (set_db_file (Some (seeded (CURRENT_TIMESTAMP w) (on_disk w)))
                   (set_migrations_dir true w)))
             (Connection None false)
             ((([ Print "Starting SQLite setup..."; Makedirs MIGRATIONS_DIR;
                  Print (if bool_decide (is_Some (db_file w))
                         then "SQLite database already exists at " +:+ DB_NAME
                         else "Creating new SQLite database...") ]
                  ++ Connect DB_NAME :: seed_events ++ [Execute SELECT_notes])
                 ++ count_events) ++ [Close]))).
  { intros m. rewrite (run_seedable (set_migration_file m w) Hsd).
    unfold block_after_seed. cbv zeta.
    change (CURRENT_TIMESTAMP (set_migration_file m w)) with (CURRENT_TIMESTAMP w).
    change (on_disk (set_migration_file m w)) with (on_disk w).
    rewrite Hs. reflexivity. }
  assert (Hw : set_migration_file (migration_file w) w = w) by (by destruct w).
  split; [|split].
  - rewrite <- Hw, Hrun.
    destruct (report_frame (bool_decide (is_Some (db_file w))) false
                (count_user_tables (seeded (CURRENT_TIMESTAMP w) (on_disk w)))
                (match count_app_info (seeded (CURRENT_TIMESTAMP w) (on_disk w)) with
                 | inl n => n | inr _ => 0 end)
                (set_migration_file (migration_file w)
                   (set_db_file (Some (seeded (CURRENT_TIMESTAMP w) (on_disk w)))
                      (set_migrations_dir true w)))
                (Connection None false)
                ((([ Print "Starting SQLite setup..."; Makedirs MIGRATIONS_DIR;
                     Print (if bool_decide (is_Some (db_file w))
                            then "SQLite database already exists at " +:+ DB_NAME
                            else "Creating new SQLite database...") ]
                     ++ Connect DB_NAME :: seed_events ++ [Execute SELECT_notes])
                    ++ count_events) ++ [Close]))
      as (w'&evs&->&_&Haux).
    intros ev. cbv [final_state trace seed_events count_events app]. intros H.
    repeat (apply elem_of_cons in H as [H|H]; [by subst ev|]).
    apply auxiliary_not_migration.
    rewrite List.Forall_forall in Haux. by apply Haux, list_elem_of_In.
  - intros m. pose proof (Hrun (migration_file w)) as Hr. rewrite Hw in Hr.
    rewrite Hrun, Hr, !report_with_migration.
    destruct (report _ _ _ _ _) as [a [w' c' t']|e [w' c' t']]; reflexivity.
  - unfold after_run. rewrite <- Hw, Hrun.
    match goal with
    | |- context [report ?dbe ?cn ?tc ?rc (State ?w0 ?c ?t)] =>
        destruct (report_frame dbe cn tc rc w0 c t) as (w'&evs&->&(_&_&_&Hdb&_)&_)
    end.
    unfold on_disk at 1 3. simpl. rewrite Hdb. simpl.
    destruct (seeded_frame (CURRENT_TIMESTAMP w) (on_disk w)) as (_&->&->). done.
Qed.

Lemma migration_gating_witness :
  (∀ ev, ev ∈ trace (final_state (run scenario_b)) → touches_migration ev = false)
  ∧ (∀ m, run (set_migration_file m scenario_b) = with_migration m (run scenario_b))
  ∧ tables (on_disk (after_run scenario_b)) = tables (on_disk scenario_b)
  ∧ indexes (on_disk (after_run scenario_b)) = indexes (on_disk scenario_b).
Proof.
  apply migration_gating.
  apply (bool_decide_unpack _). vm_compute. exact I.
Defined.

Lemma extends_rows d d' : extends d d' → rows_of d' = rows_of d.
Proof. intros (H&_). unfold rows_of. by rewrite H. Qed.

Lemma seed_ok_extends d d' : extends d d' → seed_ok d → seed_ok d'.
Proof. intros He H key value Hin. rewrite (extends_rows d d' He). by apply H. Qed.


Lemma after_run_past w : past_migration w → past_migration (after_run w).
Proof.
  intros Hp. unfold past_migration. rewrite (proj1 (after_run_frame w)).
  destruct (after_run_cases w) as [[Hd _]|(_&_&d'&Hd&He)];
    rewrite (on_disk_after _ _ Hd); [exact Hp|].
  destruct Hp as [Hn|Hs]; [left|by right].
  apply notes_in_table_names. apply notes_in_table_names in Hn as [cols Hn].
  destruct He as (_&_&_&Ht&_).
  destruct (seeded_frame (CURRENT_TIMESTAMP w) (on_disk w)) as (_&Et&_).
  rewrite Et in Ht. exists cols. eapply lookup_weaken; eauto.
Qed.

(** The first run that gets through lines 48-73 and past the migration
    step brings the seed rows. *)
Lemma after_run_seeds w :
  past_migration w → seedable (on_disk w) → seed_ok (on_disk (after_run w)).
Proof.
  intros Hp Hs. destruct (after_run_cases w) as [[_ [Hn|[Hn Hm]]]|(_&_&d'&Hd&He)].
  - done.
  - destruct Hp as [?|[? ?]]; [done|congruence].
  - rewrite (on_disk_after _ _ Hd).
    eapply seed_ok_extends; [exact He|apply seeded_seed_ok].
Qed.

(** No run undoes them: it rolls back to the database it found or
    writes them again. *)
Lemma after_run_keeps_seed w :
  seed_ok (on_disk w) → seed_ok (on_disk (after_run w)).
Proof.
  intros H. destruct (after_run_cases w) as [[Hd _]|(_&_&d'&Hd&He)];
    rewrite (on_disk_after _ _ Hd); [done|].
  eapply seed_ok_extends; [exact He|apply seeded_seed_ok].
Qed.

(** A database on which lines 48-73 pass, by computation. *)
Ltac seedable_by_computation :=
  split; [intros _; vm_compute; reflexivity|];
  split; [intros _; vm_compute; reflexivity|];
  vm_compute; reflexivity.

(** C3, as the script has it. After any number of runs, one at least,
    in a directory where the notes table is already there or the
    migration file is present, and where lines 48-73 pass at the first
    run (no index bears the name of a base table still to be made, and
    app_info has four rowids left below 2^63), app_info holds exactly
    one row for each of the four seed keys, with the values
    project_name="notes_database", version="0.1.0", author="John Doe"
    and the empty description. *)
Theorem seed_upsert_after_runs w n :
  past_migration w →
  seedable (on_disk w) →
  seed_ok (on_disk (Nat.iter (S n) after_run w)).
Proof.
  intros Hp Hs. induction n as [|n IH]; [by apply after_run_seeds|].
  change (Nat.iter (S (S n)) after_run w)
    with (after_run (Nat.iter (S n) after_run w)).
  by apply after_run_keeps_seed.
Qed.

Lemma seed_upsert_after_runs_witness :
  seed_ok (on_disk (Nat.iter 3 after_run scenario_a)).
Proof.
  apply (seed_upsert_after_runs scenario_a 2).
  - right. vm_compute. by eexists.
  - seedable_by_computation.
Defined.

(** C3 as stated fails: after the one run of scenario C, which stops at
    the missing migration file, app_info has no row for the key version
    (the table itself was rolled back). *)
Lemma seed_upsert_counterexample :
  ¬ seed_ok (on_disk (Nat.iter 1 after_run scenario_c)).
Proof.
  intros H. destruct (H "version" "0.1.0") as (r & Hr & _).
  - apply (bool_decide_unpack _). vm_compute. exact I.
  - vm_compute in Hr. discriminate Hr.
Qed.

(** C9, as the script has it. Across a run, whatever the database held
    before: every key of app_info is still there (the seed keys under
    their new value), the rows of the other keys are kept as they are,
    the rows of users are the same (none deleted, none inserted), and
    every migration table and index is still there. *)
Theorem no_entity_deleted w :
  (∀ r, r ∈ rows_of (on_disk w) →
        ∃ r', r' ∈ rows_of (on_disk (after_run w)) ∧ ai_key r' = ai_key r)
  ∧ (∀ r, r ∈ rows_of (on_disk w) → ai_key r ∉ SEED.*1 →
          r ∈ rows_of (on_disk (after_run w)))
  ∧ user_rows (on_disk (after_run w)) = user_rows (on_disk w)
  ∧ tables (on_disk w) ⊆ tables (on_disk (after_run w))
  ∧ indexes (on_disk w) ⊆ indexes (on_disk (after_run w)).
Proof.
  destruct (after_run_cases w) as [[Hd _]|(_&_&d'&Hd&He)];
    rewrite (on_disk_after _ _ Hd).
  { repeat split; eauto. }
  rewrite (extends_rows _ _ He).
  destruct (seeded_frame (CURRENT_TIMESTAMP w) (on_disk w)) as (Eu&Et&Ei).
  destruct He as (_&Hu&_&Ht&Hi). rewrite Et in Ht. rewrite Ei in Hi.
  repeat split; try done.
  - intros r Hr. unfold seeded. apply foldl_keeps_keys. by rewrite rows_of_base.
  - intros r Hr Hk. unfold seeded. apply foldl_keeps_others; [|done].
    by rewrite rows_of_base.
  - unfold user_rows at 1. rewrite Hu. exact Eu.
Qed.

(** C9 as stated fails: the run of scenario B removes the row of
    app_info with rowid 2 and key version, and inserts a row with rowid
    6 for that key. *)
Lemma no_entity_deleted_counterexample :
  AppInfoRow 2 "version" (Some "0.1.0") NOW ∈ rows_of (on_disk scenario_b)
  ∧ (AppInfoRow 2 "version" (Some "0.1.0") NOW
       ∉ rows_of (on_disk (after_run scenario_b)))
  ∧ AppInfoRow 6 "version" (Some "0.1.0") NOW ∈ rows_of (on_disk (after_run scenario_b)).
Proof.
  repeat split; apply (bool_decide_unpack _); vm_compute; exact I.
Qed.

(** *** The auxiliary outputs *)

Lemma stdout_app w c t evs :
  stdout (State w c (t ++ evs)) = stdout (State w c t) ++ stdout (State w c evs).
Proof. unfold stdout. simpl. apply omap_app. Qed.

(** The report goes through exactly when the viewer directory is there
    or can be made; a refused file only costs a warning. *)
Lemma report_best_effort dbe cn tc rc w c t :
  db_visualizer w = true ∨ deny_db_visualizer w = None →
  ∃ w' evs,
    report dbe cn tc rc (State w c t)
    = Returned () (State w' c
        (t ++ evs ++ [ Print (join " | " (status_parts dbe cn tc rc));
                       Print ("Location: " +:+ cwd w +:+ "/" +:+ DB_NAME);
                       Print ("Connect: sqlite3 " +:+ DB_NAME) ]))
    ∧ (∀ msg, deny_db_connection_txt w = Some msg →
         Print ("Warning: Could not save connection info: " +:+ msg) ∈ evs)
    ∧ (∀ msg, deny_sqlite_env w = Some msg →
         Print ("Warning: Could not save environment variables: " +:+ msg) ∈ evs)
    ∧ (deny_db_connection_txt w = None →
         db_connection_txt w' = Some (connection_info (cwd w))).
Proof.
  destruct w as [cw now md f mf ct dv se [m1|] [m2|] [m3|]]; destruct dv;
    simpl; intros [?|?]; try discriminate;
    run_report; rewrite <- ?(assoc_L (++)); simpl app;
    eexists _, _;
    (split; [match goal with
             | |- Returned _ (State _ _ (_ ++ ?l)) = _ =>
                 instantiate (1 := take (length l - 3) l); reflexivity
             end|]);
    simpl; repeat split; try done;
    intros ? [= <-]; set_solver.
Qed.

Lemma report_returned_inv dbe cn tc rc w c t s' :
  report dbe cn tc rc (State w c t) = Returned () s' →
  db_visualizer w = true ∨ deny_db_visualizer w = None.
Proof.
  destruct w as [cw now md f mf ct dv se [m1|] [m2|] [m3|]]; destruct dv;
    simpl; eauto; run_report; discriminate.
Qed.

(** A refused [os.makedirs("db_visualizer")] is not caught. *)
Lemma report_denied dbe cn tc rc w c t msg :
  db_visualizer w = false → deny_db_visualizer w = Some msg →
  ∃ w' evs,
    report dbe cn tc rc (State w c t) = Raised (OSError msg) (State w' c (t ++ evs))
    ∧ Forall (λ ev, ∀ line, ev = Print line →
                String.prefix "SQLite setup complete" line = false) evs.
Proof.
  destruct w as [cw now md f mf ct dv se [m1|] [m2|] [m3|]]; destruct dv;
    simpl; intros ? [= <-]; try discriminate;
    run_report; rewrite <- ?(assoc_L (++)); simpl app;
    eexists _, _; (split; [reflexivity|]);
    repeat (apply List.Forall_cons; [intros line [= <-]; reflexivity|]);
    apply List.Forall_nil.
Qed.


Lemma block_outcome_returned w t cn tc rc s0 :
  (∀ script, Executescript script ∉ t) →
  block_outcome w t = Returned (cn, tc, rc) s0 →
  ∃ db t', s0 = closed w db t'
           ∧ (cn = true ↔ ∃ script, Executescript script ∈ t').
Proof.
  intros Ht. unfold block_outcome. destruct (prepared _ _) as [sd|msg]; [|done].
  unfold block_after_seed, counted. cbv zeta.
  destruct (select_notes _).
  { intros [= <- _ _ <-]. eexists _, _. split; [reflexivity|].
    split; [done|]. intros [script H].
    cbv [seed_events count_events] in H. rewrite !elem_of_app in H.
    destruct H as [[H|H]|H].
    - by apply Ht in H.
    - elem_cases H ltac:(discriminate H).
    - elem_cases H ltac:(discriminate H). }
  destruct (migration_file w) as [script|]; [|done].
  destruct (exec_script _ _) as [e [msg|]]; [done|].
  destruct (pending e.2); [|done].
  intros [= <- _ _ <-]. eexists _, _. split; [reflexivity|].
  split; [|done]. intros _. exists script. set_solver.
Qed.

(** A run that returns has printed the status line of [status_parts],
    and its [created_notes] is true exactly when the run executed the
    migration script. *)
Lemma status_of_run w s :
  run w = Returned () s →
  ∃ created_notes table_count record_count,
    status_line s
    = Some (join " | " (status_parts (bool_decide (is_Some (db_file w)))
                          created_notes table_count record_count))
    ∧ (created_notes = true ↔ ∃ script, Executescript script ∈ trace s).
Proof.
  rewrite run_eq.
  destruct (block_outcome _ _) as [[[cn tc] rc] s0|e s0] eqn:Hb; [|done].
  apply block_outcome_returned in Hb as (db&t'&->&Hcn).
  2:{ intros script H. destruct (bool_decide _); elem_cases H ltac:(discriminate H). }
  unfold closed. intros Hr.
  pose proof (report_returned_inv _ _ _ _ _ _ _ _ Hr) as Hv.
  destruct (report_best_effort (bool_decide (is_Some (db_file w))) cn tc rc _
              (Connection None false) (t' ++ [Close]) Hv)
    as (w'&evs&Hr'&_&_&_).
  pose proof (report_frame (bool_decide (is_Some (db_file w))) cn tc rc
                (set_db_file (Some db) (set_migrations_dir true w))
                (Connection None false) (t' ++ [Close])) as (w2&evs2&Hf&_&Haux).
  rewrite Hr in Hr', Hf. injection Hr' as ->. simpl in Hf. injection Hf as _ Hevs.
  apply app_inv_head in Hevs. exists cn, tc, rc. split.
  - unfold status_line. rewrite (assoc_L (++)), stdout_app.
    rewrite reverse_app. reflexivity.
  - rewrite Hcn. cbv [trace].
    split; intros [script H]; exists script.
    + apply elem_of_app. left. apply elem_of_app. by left.
    + apply elem_of_app in H as [H|H].
      * apply elem_of_app in H as [H|H]; [done|].
        elem_cases H ltac:(discriminate H).
      * rewrite Hevs in H. rewrite List.Forall_forall in Haux.
        apply list_elem_of_In, Haux in H. done.
Qed.

(** Line 145 on the parts of lines 138-143: the text of the status
    line. *)
Lemma join_status_parts dbe cn tc rc :
  join " | " (status_parts dbe cn tc rc)
  = "SQLite setup complete | DB=myapp.db | tables=" +:+ pretty tc
    +:+ " | app_info_records=" +:+ pretty rc
    +:+ " | notes_table=" +:+ (if cn then "created" else "ready").
Proof. destruct dbe, cn; reflexivity. Qed.

(** C7. The notes_table field of the status line is "created" when
    created_notes is true and "ready" otherwise, and db_exists has no
    effect on it: the expression
    [not db_exists and created_notes or created_notes] equals
    [created_notes]; the line printed is
    "SQLite setup complete | DB=myapp.db | tables=T | app_info_records=R | notes_table=F"
    with F the field; and every run that prints its status line either
    has executed the migration script and prints notes_table=created,
    or has executed no script and prints notes_table=ready. *)
Theorem notes_table_reports_created_notes :
  (∀ db_exists created_notes,
     notes_table_status db_exists created_notes
     = (if created_notes then "created" else "ready")
     ∧ (negb db_exists && created_notes) || created_notes = created_notes)
  ∧ (∀ db_exists created_notes table_count record_count,
       join " | " (status_parts db_exists created_notes table_count record_count)
       = "SQLite setup complete | DB=myapp.db | tables=" +:+ pretty table_count
         +:+ " | app_info_records=" +:+ pretty record_count
         +:+ " | notes_table=" +:+ (if created_notes then "created" else "ready"))
  ∧ (∀ w s, run w = Returned () s →
       ∃ table_count record_count : nat,
         (status_line s
          = Some ("SQLite setup complete | DB=myapp.db | tables=" +:+ pretty table_count
                  +:+ " | app_info_records=" +:+ pretty record_count
                  +:+ " | notes_table=created")
          ∧ ∃ script, Executescript script ∈ trace s)
         ∨ (status_line s
            = Some ("SQLite setup complete | DB=myapp.db | tables=" +:+ pretty table_count
                    +:+ " | app_info_records=" +:+ pretty record_count
                    +:+ " | notes_table=ready")
            ∧ ∀ script, Executescript script ∉ trace s)).
Proof.
  split; [|split].
  - by intros [] [].
  - apply join_status_parts.
  - intros w s Hr. destruct (status_of_run w s Hr) as (cn&tc&rc&Hst&Hcn).
    rewrite join_status_parts in Hst. exists tc, rc. destruct cn.
    + left. split; [exact Hst|]. by apply Hcn.
    + right. split; [exact Hst|]. intros script H.
      assert (false = true); [|done]. apply Hcn. by exists script.
Qed.

(** Both sides on a run: scenario B reports notes_table=ready and has
    executed no script; the migration of [scenario_open], which leaves
    its transaction open, is executed and reported as created. *)
Lemma notes_table_reports_created_notes_witness :
  (status_line (final_state (run scenario_open))
   = Some "SQLite setup complete | DB=myapp.db | tables=3 | app_info_records=4 | notes_table=created"
   ∧ ∃ script, Executescript script ∈ trace (final_state (run scenario_open)))
  ∧ (status_line (final_state (run scenario_b))
     = Some "SQLite setup complete | DB=myapp.db | tables=3 | app_info_records=4 | notes_table=ready"
     ∧ ∀ script, Executescript script ∉ trace (final_state (run scenario_b))).
Proof.
  split.
  - split; [vm_compute; reflexivity|].
    destruct (proj2 (proj2 notes_table_reports_created_notes) scenario_open
                (final_state (run scenario_open)) ltac:(vm_compute; reflexivity))
      as (tc&rc&[[_ H]|[_ H]]); [exact H|].
    exfalso. apply (H [BEGIN; CREATE_TABLE false "notes" ["id"; "title"; "body"]]).
    apply (bool_decide_unpack _). vm_compute. exact I.
  - split; [vm_compute; reflexivity|].
    destruct (proj2 (proj2 notes_table_reports_created_notes) scenario_b
                (final_state (run scenario_b)) ltac:(vm_compute; reflexivity))
      as (tc&rc&[[_ H]|[_ H]]); [|exact H].
    exfalso. destruct H as [script H]. vm_compute in H.
    elem_cases H ltac:(discriminate H).
Defined.

Lemma connection_info_lines current_dir :
  connection_info current_dir
  = unlines [ "# SQLite connection methods:";
              "# Python: sqlite3.connect('myapp.db')";
              "# Connection string: sqlite:///" +:+ current_dir +:+ "/myapp.db";
              "# File path: " +:+ current_dir +:+ "/myapp.db" ].
Proof. reflexivity. Qed.

(** C8, as the script has it. In every run that ends well and is not
    refused the file, db_connection.txt is written as four lines: a
    heading, the driver-usage hint, the connection URI
    sqlite:///<working directory>/myapp.db and the file path
    <working directory>/myapp.db. *)
Theorem connection_file_written w s :
  run w = Returned () s →
  deny_db_connection_txt w = None →
  db_connection_txt (files s)
  = Some (unlines [ "# SQLite connection methods:";
                    "# Python: sqlite3.connect('myapp.db')";
                    "# Connection string: sqlite:///" +:+ cwd w +:+ "/myapp.db";
                    "# File path: " +:+ cwd w +:+ "/myapp.db" ]).
Proof.
  rewrite run_eq. intros Hr Hd.
  destruct (block_outcome_closed (set_migrations_dir true w)
              [ Print "Starting SQLite setup..."; Makedirs MIGRATIONS_DIR;
                Print (if bool_decide (is_Some (db_file w))
                       then "SQLite database already exists at " +:+ DB_NAME
                       else "Creating new SQLite database...") ])
    as (db&t'&Hc).
  destruct (block_outcome _ _) as [[[cn tc] rc] s0|e s0]; [|done].
  simpl in Hc. subst s0. unfold closed in Hr.
  pose proof (report_returned_inv _ _ _ _ _ _ _ _ Hr) as Hv.
  destruct (report_best_effort (bool_decide (is_Some (db_file w))) cn tc rc _
              (Connection None false) (t' ++ [Close]) Hv)
    as (w'&evs&Hr'&_&_&Htxt).
  rewrite Hr in Hr'. injection Hr' as ->.
  rewrite <- (connection_info_lines (cwd w)). exact (Htxt Hd).
Qed.

Lemma connection_file_written_witness :
  db_connection_txt (after_run scenario_b)
  = Some (unlines [ "# SQLite connection methods:";
                    "# Python: sqlite3.connect('myapp.db')";
                    "# Connection string: sqlite:///" +:+ "/srv/app" +:+ "/myapp.db";
                    "# File path: " +:+ "/srv/app" +:+ "/myapp.db" ]).
Proof.
  apply (connection_file_written scenario_b (final_state (run scenario_b)));
    [vm_compute|]; reflexivity.
Defined.

(** C8 as stated fails: the run of scenario B ends well and writes
    db_connection.txt with four lines, not three. *)
Lemma connection_file_counterexample :
  ∃ s text,
    run scenario_b = Returned () s
    ∧ db_connection_txt (files s) = Some text
    ∧ lines text = [ "# SQLite connection methods:";
                     "# Python: sqlite3.connect('myapp.db')";
                     "# Connection string: sqlite:////srv/app/myapp.db";
                     "# File path: /srv/app/myapp.db" ]
    ∧ length (lines text) ≠ 3.
Proof.
  eexists _, _. split; [vm_compute; reflexivity|].
  split; [reflexivity|]. split; [vm_compute; reflexivity|].
  vm_compute. discriminate.
Qed.

(** *** COMMIT after the migration script *)

Lemma exec_stmt_idle st e e' :
  st ≠ BEGIN → pending e.2 = None → exec_stmt st e = inl e' → pending e'.2 = None.
Proof.
  destruct e as [disk [p fk]]; simpl. intros Hst ->.
  destruct st as [| |ine name cols|ine name table|message]; simpl; try done.
  - unfold update, store, view; simpl.
    destruct (create_table _ _ _ _); [|done]. by intros [= <-].
  - unfold update, store, view; simpl.
    destruct (create_index _ _ _ _); [|done]. by intros [= <-].
Qed.

Lemma exec_script_idle script e :
  BEGIN ∉ script → pending e.2 = None →
  pending (exec_script script e).1.2 = None.
Proof.
  revert e. induction script as [|st rest IH]; intros e Hb Hp; simpl; [done|].
  apply not_elem_of_cons in Hb as [Hst Hb].
  destruct (exec_stmt st e) as [e'|msg] eqn:He; [|done].
  apply IH; [done|]. eapply exec_stmt_idle; eauto.
Qed.

(** The run up to the migration step, when lines 48-73 pass, the notes
    table is missing and the migration file is there. *)
Ltac to_script w Hsd Hn Hm :=
  rewrite (run_seedable w Hsd); unfold block_after_seed, counted; cbv zeta;
  change (on_disk (set_migrations_dir true w)) with (on_disk w);
  change (migration_file (set_migrations_dir true w)) with (migration_file w);
  rewrite <- (notes_seeded (CURRENT_TIMESTAMP w)), <- select_notes_None in Hn;
  rewrite Hn, Hm.

(** The run when lines 48-73 pass and the notes table is in the
    catalog. *)
Ltac to_ready w Hsd Hn :=
  let n := fresh "n" in
  let Hs := fresh "Hs" in
  assert (Hs : ∃ n, select_notes (seeded (CURRENT_TIMESTAMP w) (on_disk w)) = Some n)
    by (apply select_notes_Some; by apply notes_seeded);
  destruct Hs as [n Hs];
  rewrite (run_seedable w Hsd); unfold block_after_seed, counted; cbv zeta;
  change (on_disk (set_migrations_dir true w)) with (on_disk w);
  rewrite Hs, count_app_info_length; unfold closed.

(** [executescript] has committed the transaction of line 45, so when
    the migration script opens none of its own and runs without error,
    the COMMIT of line 95 finds no transaction and raises. *)
Lemma commit_after_script_raises w script :
  seedable (on_disk w) →
  "notes" ∉ table_names (on_disk w) →
  migration_file w = Some script →
  BEGIN ∉ script →
  (exec_script script (seeded (CURRENT_TIMESTAMP w) (on_disk w),
                       Connection None true)).2 = None →
  ∃ s, run w = Raised (OperationalError "cannot commit - no transaction is active") s.
Proof.
  intros Hsd Hn Hm Hb Hok. to_script w Hsd Hn Hm.
  pose proof (exec_script_idle script
                (seeded (CURRENT_TIMESTAMP w) (on_disk w), Connection None true)
                Hb eq_refl) as Hp.
  destruct (exec_script script _) as [e r]. simpl in Hok, Hp. subst r.
  rewrite Hp. by eexists.
Qed.

(** *** A second run *)

(** With the notes table in the catalog, a run that gets through lines
    48-73 leaves the seeded database, no more. *)
Lemma after_run_with_notes w :
  "notes" ∈ table_names (on_disk w) →
  seedable (on_disk w) →
  db_file (after_run w) = Some (seeded (CURRENT_TIMESTAMP w) (on_disk w)).
Proof.
  intros Hn Hsd. unfold after_run. to_ready w Hsd Hn.
  match goal with
  | |- context [report ?dbe ?cn ?tc ?rc (State ?w0 ?c ?t)] =>
      destruct (report_frame dbe cn tc rc w0 c t) as (w'&evs&->&(_&_&_&Hdb&_)&_)
  end.
  exact Hdb.
Qed.

Lemma key_values_upsert now db kv :
  is_Some (app_info db) →
  key_values (upsert now db kv)
  = filter (λ p, p.1 ≠ kv.1) (key_values db) ++ [(kv.1, Some kv.2)].
Proof.
  intros H. unfold key_values. rewrite upsert_rows by done.
  rewrite fmap_app. f_equal.
  induction (rows_of db) as [|r rows IH]; [done|].
  rewrite fmap_cons, !filter_cons. simpl.
  case_decide; [|done]. by rewrite fmap_cons, IH.
Qed.

Lemma key_values_seeded now d :
  key_values d = [] ∨ key_values d = SEED_key_values →
  key_values (seeded now d) = SEED_key_values.
Proof.
  intros Hd. pose proof (app_info_base d) as H0.
  assert (Hb : key_values (base d) = key_values d)
    by (unfold key_values; by rewrite rows_of_base).
  unfold seeded, SEED. cbn [foldl].
  rewrite !key_values_upsert by (by repeat apply app_info_upsert).
  rewrite Hb. destruct Hd as [-> | ->]; vm_compute; reflexivity.
Qed.

Lemma key_values_foldl now l db :
  is_Some (app_info db) → NoDup l.*1 →
  key_values (foldl (upsert now) db l)
  = filter (λ p, p.1 ∉ l.*1) (key_values db) ++ ((λ kv, (kv.1, Some kv.2)) <$> l).
Proof.
  revert db. induction l as [|kv l IH]; intros db Hs Hnd.
  - simpl. rewrite app_nil_r. symmetry.
    induction (key_values db) as [|p kvs IHk]; [done|].
    rewrite filter_cons_True by apply not_elem_of_nil. by rewrite IHk.
  - rewrite fmap_cons in Hnd. apply NoDup_cons in Hnd as [Hk Hnd].
    simpl foldl. rewrite IH by (by try apply app_info_upsert).
    rewrite key_values_upsert by done.
    rewrite filter_app, list_filter_filter.
    rewrite filter_cons_True by done. rewrite filter_nil.
    rewrite <- (assoc_L (++)). simpl. f_equal.
    apply list_filter_iff. intros p. rewrite not_elem_of_cons. tauto.
Qed.

Lemma key_values_seeded_exact now d :
  key_values (seeded now d)
  = filter (λ p, p.1 ∉ SEED.*1) (key_values d) ++ SEED_key_values.
Proof.
  unfold seeded. rewrite key_values_foldl.
  - unfold key_values at 1. by rewrite rows_of_base.
  - apply app_info_base.
  - apply (bool_decide_unpack _). by vm_compute.
Qed.

Lemma max_id_upsert now db kv :
  is_Some (app_info db) →
  (max_id (rows_of db) < next_id db (rows_of db)
   ∧ next_id db (rows_of db) ≤ max_id (rows_of (upsert now db kv)))%Z.
Proof.
  intros Hs. split; [unfold next_id, last_id; lia|].
  rewrite upsert_rows by done. rewrite max_id_snoc; [cbn [ai_id]; lia|].
  intros r [_ Hr]%list_elem_of_filter. cbn [ai_id]. unfold next_id, last_id.
  pose proof (max_id_ge _ _ Hr). lia.
Qed.

Lemma foldl_fresh_ids now l db r' :
  is_Some (app_info db) →
  r' ∈ rows_of (foldl (upsert now) db l) → ai_key r' ∈ l.*1 →
  (max_id (rows_of db) < ai_id r')%Z.
Proof.
  revert db. induction l as [|kv l IH]; intros db Hs Hin Hk;
    [by apply elem_of_nil in Hk|].
  simpl in Hin. destruct (max_id_upsert now db kv Hs) as [H1 H2].
  destruct (decide (ai_key r' ∈ l.*1)) as [Hl|Hl].
  - specialize (IH (upsert now db kv) (app_info_upsert _ _ _ Hs) Hin Hl). lia.
  - rewrite fmap_cons in Hk. apply elem_of_cons in Hk as [Hk|Hk]; [|done].
    assert (Hr : r' ∈ rows_with_key kv.1 (rows_of (foldl (upsert now) (upsert now db kv) l)))
      by (by apply list_elem_of_filter).
    rewrite foldl_other_keys in Hr by (by rewrite <- ?Hk; try apply app_info_upsert).
    rewrite rows_with_key_upsert, decide_True in Hr by done.
    apply list_elem_of_singleton in Hr. subst r'. simpl. lia.
Qed.

Lemma table_names_seeded now d :
  is_Some (app_info d) → is_Some (users d) → is_Some (sqlite_sequence d) →
  table_names (seeded now d) = table_names d.
Proof.
  intros [a Ha] [u Hu] [q Hq].
  destruct (seeded_present now d) as ([a' Ha']&[u' Hu']&[q' Hq']).
  destruct (seeded_frame now d) as (_&Et&_).
  unfold table_names. by rewrite Et, Ha, Hu, Hq, Ha', Hu', Hq'.
Qed.

Lemma foldl_last_id now l db :
  is_Some (app_info db) →
  last_id (foldl (upsert now) db l) (rows_of (foldl (upsert now) db l))
  = (last_id db (rows_of db) + Z.of_nat (length l))%Z.
Proof.
  revert db. induction l as [|kv l IH]; intros db Hs; cbn [foldl length]; [lia|].
  rewrite IH by (by apply app_info_upsert). rewrite last_id_upsert by done. lia.
Qed.

(** A run from a directory past the migration step: the file is as it
    was because lines 48-73 fail, or the run leaves the seeded database
    with what the migration added. *)
Lemma after_run_past_cases w :
  past_migration w →
  (db_file (after_run w) = Some (on_disk w) ∧ ¬ seedable (on_disk w))
  ∨ (∃ d', db_file (after_run w) = Some d'
           ∧ extends (seeded (CURRENT_TIMESTAMP w) (on_disk w)) d').
Proof.
  intros Hp. destruct (after_run_cases w) as [[Hd [Hns|[Hn Hm]]]|(_&_&d'&Hd&He)].
  - by left.
  - destruct Hp as [?|[? ?]]; [done|congruence].
  - right. by exists d'.
Qed.

(** Lines 48-73 on a database that extends a seeded one change neither
    the catalog nor the keys and values of app_info. *)
Lemma seeded_again now now' d d1 :
  extends (seeded now d) d1 →
  table_names (seeded now' d1) = table_names d1
  ∧ key_values (seeded now' d1) = key_values d1.
Proof.
  intros He1.
  destruct (seeded_present now d) as (Ha&Hu&Hq).
  destruct He1 as (Ea&Eu&Es&_). split.
  - apply table_names_seeded; by rewrite ?Ea, ?Eu, ?Es.
  - rewrite key_values_seeded_exact.
    assert (K : key_values d1 = key_values (seeded now d))
      by (unfold key_values, rows_of; by rewrite Ea).
    rewrite K, key_values_seeded_exact.
    rewrite filter_app, list_filter_filter_l by tauto.
    assert (E : filter (λ p : string * option string, p.1 ∉ SEED.*1) SEED_key_values = [])
      by (vm_compute; reflexivity).
    by rewrite E, app_nil_r.
Qed.

(** Once a run has got past the migration step and left a notes table,
    the next run changes neither the catalog nor the keys and values of
    app_info. *)
Lemma next_run_same w :
  past_migration w →
  "notes" ∈ table_names (on_disk (after_run w)) →
  table_names (on_disk (after_run (after_run w)))
  = table_names (on_disk (after_run w))
  ∧ key_values (on_disk (after_run (after_run w)))
    = key_values (on_disk (after_run w)).
Proof.
  intros Hp Hn.
  destruct (after_run_cases (after_run w)) as [[Hd2 _]|(Hs2&_&_)].
  { by rewrite (on_disk_after _ _ Hd2). }
  pose proof (after_run_with_notes (after_run w) Hn Hs2) as Hg.
  rewrite (on_disk_after _ _ Hg).
  destruct (after_run_past_cases w Hp) as [[Hd1 Hns]|(d1&Hd1&He1)].
  { rewrite (on_disk_after _ _ Hd1) in Hs2. done. }
  rewrite (on_disk_after _ _ Hd1).
  apply (seeded_again (CURRENT_TIMESTAMP w) (CURRENT_TIMESTAMP (after_run w))
           (on_disk w) d1 He1).
Qed.

Lemma seedable_empty : seedable empty_database.
Proof. seedable_by_computation. Qed.

(** The database part of the idempotence: in a directory without
    database file, when the first run has brought the notes table, the
    second run leaves the catalog and the keys and values of app_info as
    the first left them. *)
Lemma second_run_same_database w :
  db_file w = None →
  is_Some (migration_file w) →
  "notes" ∈ table_names (on_disk (after_run w)) →
  table_names (on_disk (after_run (after_run w)))
  = table_names (on_disk (after_run w))
  ∧ key_values (on_disk (after_run (after_run w)))
    = key_values (on_disk (after_run w))
  ∧ key_values (on_disk (after_run w)) = SEED_key_values.
Proof.
  intros Hf Hs Hn.
  destruct (next_run_same w (or_intror Hs) Hn) as [H1 H2].
  split; [exact H1|]. split; [exact H2|].
  assert (H0 : on_disk w = empty_database) by (unfold on_disk; by rewrite Hf).
  destruct (after_run_cases w) as [[_ [Hns|[_ Hm]]]|(_&_&d1&Hd1&He1)].
  - destruct Hns. rewrite H0. apply seedable_empty.
  - destruct Hs as [? Hs]. congruence.
  - rewrite (on_disk_after _ _ Hd1). rewrite H0 in He1.
    unfold key_values. rewrite (extends_rows _ _ He1).
    apply (key_values_seeded (CURRENT_TIMESTAMP w) empty_database). by left.
Qed.

(** *** The scenarios, run *)

(** No line printed is a status line, on the lines as they evaluate. *)
Ltac no_status_line :=
  let line := fresh "line" in
  let H := fresh "H" in
  let Hp := fresh "Hp" in
  intros (line & H & Hp); vm_compute in H;
  elem_cases H ltac:(subst line; vm_compute in Hp; discriminate Hp).

(** C5 on the code. Scenario A, a fresh directory with a migration that
    creates notes(id, title, body): foreign keys are switched on before
    BEGIN, the catalog ends with app_info, users and notes (three tables
    counted, sqlite_sequence left out), app_info has its four rows; but
    the COMMIT of line 95 comes after [executescript] has committed
    already, it raises OperationalError, the exit status is 1 and no
    status line is printed. *)
Theorem scenario_a_first_run :
  ∃ s, run scenario_a
       = Raised (OperationalError "cannot commit - no transaction is active") s
       ∧ exit_code (run scenario_a) = 1
       ∧ ¬ reports_status s
       ∧ take 6 (trace s)
         = [ Print "Starting SQLite setup..."; Makedirs "migrations";
             Print "Creating new SQLite database..."; Connect "myapp.db";
             Execute PRAGMA_foreign_keys_ON; Execute SQL_BEGIN ]
       ∧ last (removelast (trace s)) = Some (Execute SQL_COMMIT)
       ∧ table_names (on_disk (files s))
         = ["app_info"; "users"; "sqlite_sequence"; "notes"]
       ∧ count_user_tables (on_disk (files s)) = 3
       ∧ length (rows_of (on_disk (files s))) = 4.
Proof.
  eexists. split; [vm_compute; reflexivity|].
  split; [vm_compute; reflexivity|].
  split; [no_status_line|].
  repeat split; vm_compute; reflexivity.
Qed.

(** C2 on the code. Scenario A run twice: the second run leaves the
    same tables and the same four keys and values as the first and
    reports notes_table=ready; but the first run has raised at the
    COMMIT of line 95 and reported nothing, where the claim has it
    report notes_table=created. *)
Theorem scenario_a_run_twice :
  ∃ s1 s2,
    run scenario_a
    = Raised (OperationalError "cannot commit - no transaction is active") s1
    ∧ ¬ reports_status s1
    ∧ run (files s1) = Returned () s2
    ∧ status_line s2
      = Some "SQLite setup complete | DB=myapp.db | tables=3 | app_info_records=4 | notes_table=ready"
    ∧ table_set (on_disk (files s2)) = table_set (on_disk (files s1))
    ∧ key_values (on_disk (files s2)) = key_values (on_disk (files s1))
    ∧ key_values (on_disk (files s2))
      = [ ("project_name", Some "notes_database"); ("version", Some "0.1.0");
          ("author", Some "John Doe"); ("description", Some EmptyString) ].
Proof.
  eexists _, _. split; [vm_compute; reflexivity|].
  split; [no_status_line|].
  split; [vm_compute; reflexivity|].
  repeat split; vm_compute; reflexivity.
Qed.

(** C6 on the code. In the directory of scenario B, where making
    db_visualizer is refused: the error of [os.makedirs] (line 127, under
    no [try]) ends the run with exit status 1 and no status line; the
    tables are in place. *)
Theorem scenario_denied_run :
  ∃ s, run scenario_denied
       = Raised (OSError "[Errno 13] Permission denied: 'db_visualizer'") s
       ∧ exit_code (run scenario_denied) = 1
       ∧ ¬ reports_status s
       ∧ stdout s = [ "Starting SQLite setup...";
                      "SQLite database already exists at myapp.db";
                      "Connection information saved to db_connection.txt" ]
       ∧ table_names (on_disk (files s))
         = ["app_info"; "users"; "sqlite_sequence"; "notes"].
Proof.
  eexists. split; [vm_compute; reflexivity|].
  split; [vm_compute; reflexivity|].
  split; [no_status_line|].
  split; vm_compute; reflexivity.
Qed.

(** C10 on the code. A migration that creates memos and no notes table:
    each of two runs in succession executes the script and leaves the
    catalog without notes, as the claim says; but each raises at the
    COMMIT of line 95 and prints no status line, where the claim has
    each report notes_table=created. *)
Theorem scenario_memos_run_twice :
  ∃ s1 s2,
    run scenario_memos
    = Raised (OperationalError "cannot commit - no transaction is active") s1
    ∧ Executescript [CREATE_TABLE true "memos" ["id"; "text"]] ∈ trace s1
    ∧ ¬ reports_status s1
    ∧ table_names (on_disk (files s1))
      = ["app_info"; "users"; "sqlite_sequence"; "memos"]
    ∧ run (files s1)
      = Raised (OperationalError "cannot commit - no transaction is active") s2
    ∧ Executescript [CREATE_TABLE true "memos" ["id"; "text"]] ∈ trace s2
    ∧ ¬ reports_status s2
    ∧ table_names (on_disk (files s2))
      = ["app_info"; "users"; "sqlite_sequence"; "memos"].
Proof.
  eexists _, _. split; [vm_compute; reflexivity|].
  split; [apply (bool_decide_unpack _); vm_compute; exact I|].
  split; [no_status_line|].
  split; [vm_compute; reflexivity|].
  split; [vm_compute; reflexivity|].
  split; [apply (bool_decide_unpack _); vm_compute; exact I|].
  split; [no_status_line|].
  vm_compute; reflexivity.
Qed.

(* ===================================================================== *)
(** ** The script beyond the claims *)
(* ===================================================================== *)

(** *** More on the auxiliary outputs *)

(** What [report] leaves in the two files and the directory. *)
Lemma report_outputs dbe cn tc rc w c t :
  let w' := files (final_state (report dbe cn tc rc (State w c t))) in
  db_connection_txt w'
  = match deny_db_connection_txt w with
    | None => Some (connection_info (cwd w))
    | Some _ => db_connection_txt w
    end
  ∧ db_visualizer w' = viewer_dir_ok w
  ∧ sqlite_env w'
    = match deny_sqlite_env w with
      | None => if viewer_dir_ok w then Some (env_text (cwd w)) else sqlite_env w
      | Some _ => sqlite_env w
      end.
Proof.
  destruct w as [cw now md f mf ct dv se [m1|] [m2|] [m3|]]; destruct dv;
    cbv zeta; run_report; by repeat split.
Qed.

(** When the viewer directory is there or can be made, [report] ends
    well, whatever the two writes meet. *)
Lemma report_returns dbe cn tc rc w c t :
  db_visualizer w = true ∨ deny_db_visualizer w = None →
  ∃ s, report dbe cn tc rc (State w c t) = Returned () s
       ∧ same_inputs w (files s)
       ∧ status_line s = Some (join " | " (status_parts dbe cn tc rc))
       ∧ (∀ msg, deny_db_connection_txt w = Some msg →
            ("Warning: Could not save connection info: " +:+ msg) ∈ stdout s)
       ∧ (∀ msg, deny_sqlite_env w = Some msg →
            ("Warning: Could not save environment variables: " +:+ msg) ∈ stdout s).
Proof.
  intros Hv.
  destruct (report_best_effort dbe cn tc rc w c t Hv) as (w'&evs&Hr&Hw1&Hw2&_).
  destruct (report_frame dbe cn tc rc w c t) as (w2&evs2&Hf&Hsame&_).
  rewrite Hr in Hf. simpl in Hf. injection Hf as -> _.
  eexists. split; [exact Hr|]. split; [exact Hsame|]. split; [|split].
  - unfold status_line. rewrite (assoc_L (++)), stdout_app, reverse_app. reflexivity.
  - intros msg Hm. rewrite stdout_app. apply elem_of_app. right.
    unfold stdout; simpl. rewrite omap_app. apply elem_of_app. left.
    apply list_elem_of_omap. eexists. split; [by apply Hw1|]. reflexivity.
  - intros msg Hm. rewrite stdout_app. apply elem_of_app. right.
    unfold stdout; simpl. rewrite omap_app. apply elem_of_app. left.
    apply list_elem_of_omap. eexists. split; [by apply Hw2|]. reflexivity.
Qed.

(** *** The run, outcome by outcome *)

(** The block connects first and closes last, and what it returns are
    the counts of the database it leaves. *)
Lemma block_outcome_form w t :
  ∃ db t',
    final_state (block_outcome w t) = closed w db (t ++ Connect DB_NAME :: t')
    ∧ ∀ cn tc rc s, block_outcome w t = Returned (cn, tc, rc) s →
        tc = count_user_tables db ∧ rc = length (rows_of db)
        ∧ extends (seeded (CURRENT_TIMESTAMP w) (on_disk w)) db.
Proof.
  unfold block_outcome.
  destruct (prepared _ _) as [sd|msg] eqn:Hp.
  2:{ eexists (on_disk w), _. split; [reflexivity|done]. }
  apply prepared_seeded in Hp as (_&->&_).
  unfold block_after_seed, counted. cbv zeta.
  set (sd := seeded (CURRENT_TIMESTAMP w) (on_disk w)).
  destruct (select_notes sd).
  { eexists sd, _. split.
    - simpl. rewrite <- !(assoc_L (++)). reflexivity.
    - intros cn tc rc s0 [= <- <- <- <-].
      split; [done|]. split; [apply count_app_info_length|apply extends_refl]. }
  destruct (migration_file w) as [script|].
  2:{ eexists (on_disk w), _. split; [|done].
      simpl. rewrite <- !(assoc_L (++)). reflexivity. }
  pose proof (exec_script_grows script sd _ (grows_from_start sd true)) as [Hg Hp].
  destruct (exec_script script (sd, Connection None true)) as [e [msg|]].
  { eexists e.1, _. split; [|done].
    simpl. rewrite <- !(assoc_L (++)). reflexivity. }
  simpl in Hg, Hp. destruct (pending e.2) as [p|].
  - eexists p, _. split.
    + simpl. rewrite <- !(assoc_L (++)). reflexivity.
    + intros cn tc rc s0 [= <- <- <- <-].
      split; [done|]. split; [apply count_app_info_length|].
      eapply extends_trans; eauto.
  - eexists e.1, _. split; [|done].
    simpl. rewrite <- !(assoc_L (++)). reflexivity.
Qed.

(** A run that returns: the database on disk, its counts in the status
    line. *)
Lemma run_returned_form w s :
  run w = Returned () s →
  ∃ cn db,
    db_file (files s) = Some db
    ∧ extends (seeded (CURRENT_TIMESTAMP w) (on_disk w)) db
    ∧ status_line s
      = Some (join " | " (status_parts (bool_decide (is_Some (db_file w))) cn
                            (count_user_tables db) (length (rows_of db)))).
Proof.
  rewrite run_preamble.
  destruct (block_outcome_form (set_migrations_dir true w)
              (preamble (bool_decide (is_Some (db_file w))))) as (db&t'&Hc&Hcount).
  destruct (block_outcome _ _) as [[[cn tc] rc] s0|e s0]; [|done].
  destruct (Hcount cn tc rc s0 eq_refl) as (->&->&He).
  cbv [final_state] in Hc. subst s0. unfold closed. intros Hr.
  pose proof (report_returned_inv _ _ _ _ _ _ _ _ Hr) as Hv.
  match type of Hr with
  | report ?a ?b ?c ?d (State ?w0 ?c0 ?t0) = _ =>
      destruct (report_returns a b c d w0 c0 t0 Hv)
        as (s'&Hr'&(_&_&_&Hdb&_)&Hst&_)
  end.
  rewrite Hr in Hr'. injection Hr' as <-.
  exists cn, db. split; [by rewrite Hdb|]. split; [exact He|exact Hst].
Qed.

(** *** The migration step, case by case *)

(** X2. When lines 48-73 pass, the migration script runs without error
    and leaves a transaction of its own open, and the db_visualizer
    directory is there or can be made, the COMMIT of line 95 commits
    that transaction: the run ends well, the file holds what the script
    built and the status line gives the counts of that database and
    notes_table=created. *)
Theorem open_transaction_is_committed w script :
  seedable (on_disk w) →
  "notes" ∉ table_names (on_disk w) →
  migration_file w = Some script →
  (exec_script script (seeded (CURRENT_TIMESTAMP w) (on_disk w),
                       Connection None true)).2 = None →
  is_Some (pending (exec_script script (seeded (CURRENT_TIMESTAMP w) (on_disk w),
                                        Connection None true)).1.2) →
  db_visualizer w = true ∨ deny_db_visualizer w = None →
  ∃ s db,
    run w = Returned () s
    ∧ pending (exec_script script (seeded (CURRENT_TIMESTAMP w) (on_disk w),
                                   Connection None true)).1.2 = Some db
    ∧ db_file (files s) = Some db
    ∧ status_line s
      = Some ("SQLite setup complete | DB=myapp.db | tables="
               +:+ pretty (count_user_tables db)
               +:+ " | app_info_records="
               +:+ pretty (length (rows_of db))
               +:+ " | notes_table=created").
Proof.
  intros Hsd Hn Hm Hok [p Hp] Hv. to_script w Hsd Hn Hm.
  destruct (exec_script script _) as [e r]. simpl in Hok, Hp. subst r.
  rewrite Hp, count_app_info_length. unfold closed.
  match goal with
  | |- context [report ?a ?b ?c ?d (State ?w0 ?c0 ?t0)] =>
      destruct (report_returns a b c d w0 c0 t0 Hv)
        as (s&Hr&(_&_&_&Hdb&_)&Hst&_)
  end.
  rewrite join_status_parts in Hst.
  exists s, p. split; [exact Hr|]. split; [exact Hp|].
  split; [by rewrite Hdb|exact Hst].
Qed.

Lemma open_transaction_is_committed_witness :
  ∃ s db,
    run scenario_open = Returned () s
    ∧ pending (exec_script [BEGIN; CREATE_TABLE false "notes" ["id"; "title"; "body"]]
                 (seeded NOW empty_database, Connection None true)).1.2 = Some db
    ∧ db_file (files s) = Some db
    ∧ status_line s
      = Some ("SQLite setup complete | DB=myapp.db | tables="
               +:+ pretty (count_user_tables db)
               +:+ " | app_info_records="
               +:+ pretty (length (rows_of db))
               +:+ " | notes_table=created").
Proof.
  apply (open_transaction_is_committed scenario_open
           [BEGIN; CREATE_TABLE false "notes" ["id"; "title"; "body"]]).
  - seedable_by_computation.
  - apply (bool_decide_unpack _). vm_compute. exact I.
  - reflexivity.
  - vm_compute. reflexivity.
  - vm_compute. by eexists.
  - by right.
Defined.

(** X3. When lines 48-73 pass and the migration script fails, the run
    ends on the engine's error, executes no COMMIT and prints no status
    line; but [executescript] had committed the transaction of line 45
    first, so the two base tables and the four seed rows are on disk,
    with what the script did outside a transaction or committed itself
    before the failing statement. What it did inside a transaction of
    its own that was still open is lost when the connection closes. *)
Theorem failed_script_is_half_committed w script msg :
  seedable (on_disk w) →
  "notes" ∉ table_names (on_disk w) →
  migration_file w = Some script →
  (exec_script script (seeded (CURRENT_TIMESTAMP w) (on_disk w),
                       Connection None true)).2 = Some msg →
  ∃ s, run w = Raised (OperationalError msg) s
       ∧ ¬ reports_status s
       ∧ (Execute SQL_COMMIT ∉ trace s)
       ∧ db_file (files s)
         = Some (exec_script script (seeded (CURRENT_TIMESTAMP w) (on_disk w),
                                     Connection None true)).1.1
       ∧ seed_ok (on_disk (files s))
       ∧ tables (on_disk w) ⊆ tables (on_disk (files s)).
Proof.
  intros Hsd Hn Hm Hf. to_script w Hsd Hn Hm.
  pose proof (exec_script_grows script _ _
                (grows_from_start (seeded (CURRENT_TIMESTAMP w) (on_disk w)) true))
    as [Hg _].
  destruct (exec_script script _) as [e r]. simpl in Hf, Hg. subst r.
  eexists. split; [reflexivity|].
  split; [|split; [|split; [reflexivity|split]]].
  - destruct (bool_decide (is_Some (db_file w)));
      intros (line & H & Hp); vm_compute in H;
      elem_cases H ltac:(subst line; vm_compute in Hp; discriminate Hp).
  - destruct (bool_decide (is_Some (db_file w)));
      cbv [closed trace preamble seed_events app]; intros H;
      elem_cases H ltac:(discriminate H).
  - eapply seed_ok_extends; [exact Hg|apply seeded_seed_ok].
  - destruct Hg as (_&_&_&Ht&_).
    destruct (seeded_frame (CURRENT_TIMESTAMP w) (on_disk w)) as (_&Et&_).
    by rewrite Et in Ht.
Qed.

(** The two sides on a run: the notes table that [scenario_broken]
    creates outside any transaction is on disk after the failure, the
    one that [scenario_lost] creates inside its own BEGIN is not. *)
Lemma failed_script_is_half_committed_witness :
  (∃ s, run scenario_broken
        = Raised (OperationalError (syntax_error_near "INDX")) s
        ∧ ¬ reports_status s
        ∧ (Execute SQL_COMMIT ∉ trace s)
        ∧ db_file (files s)
          = Some (exec_script
                    [ CREATE_TABLE false "notes" ["id"; "title"; "body"];
                      Unparsable (syntax_error_near "INDX") ]
                    (seeded NOW empty_database, Connection None true)).1.1
        ∧ seed_ok (on_disk (files s))
        ∧ tables (on_disk scenario_broken) ⊆ tables (on_disk (files s)))
  ∧ "notes" ∈ table_names (on_disk (after_run scenario_broken))
  ∧ (∃ s, run scenario_lost
          = Raised (OperationalError (syntax_error_near "INDX")) s
          ∧ ¬ reports_status s
          ∧ (Execute SQL_COMMIT ∉ trace s)
          ∧ db_file (files s)
            = Some (exec_script
                      [ BEGIN; CREATE_TABLE false "notes" ["id"; "title"; "body"];
                        Unparsable (syntax_error_near "INDX") ]
                      (seeded NOW empty_database, Connection None true)).1.1
          ∧ seed_ok (on_disk (files s))
          ∧ tables (on_disk scenario_lost) ⊆ tables (on_disk (files s)))
  ∧ "notes" ∉ table_names (on_disk (after_run scenario_lost)).
Proof.
  split; [|split; [apply (bool_decide_unpack _); vm_compute; exact I
                  |split; [|apply (bool_decide_unpack _); vm_compute; exact I]]].
  - apply (failed_script_is_half_committed scenario_broken
             [ CREATE_TABLE false "notes" ["id"; "title"; "body"];
               Unparsable (syntax_error_near "INDX") ]).
    + seedable_by_computation.
    + apply (bool_decide_unpack _). vm_compute. exact I.
    + reflexivity.
    + vm_compute. reflexivity.
  - apply (failed_script_is_half_committed scenario_lost
             [ BEGIN; CREATE_TABLE false "notes" ["id"; "title"; "body"];
               Unparsable (syntax_error_near "INDX") ]).
    + seedable_by_computation.
    + apply (bool_decide_unpack _). vm_compute. exact I.
    + reflexivity.
    + vm_compute. reflexivity.
Defined.

(** X4. When lines 48-73 pass, the notes table is already there and the
    viewer directory is there or can be made, the run ends well even if
    both auxiliary files are refused: it commits the seeded database,
    prints one warning for each refused file, carrying the error's
    message, and its status line gives the counts of the database and
    notes_table=ready. *)
Theorem ready_run_reports w :
  seedable (on_disk w) →
  "notes" ∈ table_names (on_disk w) →
  db_visualizer w = true ∨ deny_db_visualizer w = None →
  ∃ s, run w = Returned () s
       ∧ db_file (files s) = Some (seeded (CURRENT_TIMESTAMP w) (on_disk w))
       ∧ status_line s
         = Some ("SQLite setup complete | DB=myapp.db | tables="
               +:+ pretty (count_user_tables (on_disk (files s)))
               +:+ " | app_info_records="
               +:+ pretty (length (rows_of (on_disk (files s))))
               +:+ " | notes_table=ready")
       ∧ (∀ msg, deny_db_connection_txt w = Some msg →
            ("Warning: Could not save connection info: " +:+ msg) ∈ stdout s)
       ∧ (∀ msg, deny_sqlite_env w = Some msg →
            ("Warning: Could not save environment variables: " +:+ msg) ∈ stdout s).
Proof.
  intros Hsd Hn Hv. to_ready w Hsd Hn.
  match goal with
  | |- context [report ?a ?b ?c ?d (State ?w0 ?c0 ?t0)] =>
      destruct (report_returns a b c d w0 c0 t0 Hv)
        as (s&Hr&(_&_&_&Hdb&_)&Hst&Hw1&Hw2)
  end.
  rewrite join_status_parts in Hst.
  exists s. split; [exact Hr|].
  assert (Hd : db_file (files s) = Some (seeded (CURRENT_TIMESTAMP w) (on_disk w)))
    by (by rewrite Hdb).
  split; [exact Hd|]. unfold on_disk at 1 2. rewrite Hd.
  split; [exact Hst|]. split; [exact Hw1|exact Hw2].
Qed.

Lemma ready_run_reports_witness :
  ∃ s, run scenario_refused = Returned () s
       ∧ db_file (files s) = Some (seeded NOW (on_disk scenario_refused))
       ∧ status_line s
         = Some ("SQLite setup complete | DB=myapp.db | tables="
               +:+ pretty (count_user_tables (on_disk (files s)))
               +:+ " | app_info_records="
               +:+ pretty (length (rows_of (on_disk (files s))))
               +:+ " | notes_table=ready")
       ∧ (∀ msg, deny_db_connection_txt scenario_refused = Some msg →
            ("Warning: Could not save connection info: " +:+ msg) ∈ stdout s)
       ∧ (∀ msg, deny_sqlite_env scenario_refused = Some msg →
            ("Warning: Could not save environment variables: " +:+ msg) ∈ stdout s).
Proof.
  apply (ready_run_reports scenario_refused).
  - seedable_by_computation.
  - apply (bool_decide_unpack _). vm_compute. exact I.
  - by right.
Defined.

(** X5. When lines 48-73 pass, the notes table is already there, the
    viewer directory is missing and [os.makedirs] refuses to make it,
    the run ends on that error, uncaught: the database is committed, but
    neither the environment file nor the status line is written. *)
Theorem refused_directory_is_fatal w msg :
  seedable (on_disk w) →
  "notes" ∈ table_names (on_disk w) →
  db_visualizer w = false →
  deny_db_visualizer w = Some msg →
  ∃ s, run w = Raised (OSError msg) s
       ∧ db_file (files s) = Some (seeded (CURRENT_TIMESTAMP w) (on_disk w))
       ∧ sqlite_env (files s) = sqlite_env w
       ∧ ¬ reports_status s.
Proof.
  intros Hsd Hn Hv Hd. to_ready w Hsd Hn.
  match goal with
  | |- context [report ?a ?b ?c ?d (State ?w0 ?c0 ?t0)] =>
      destruct (report_denied a b c d w0 c0 t0 msg Hv Hd) as (w'&evs&Hr&Hevs);
      destruct (report_frame a b c d w0 c0 t0) as (w2&evs2&Hf&(_&_&_&Hdb&_)&_);
      destruct (report_outputs a b c d w0 c0 t0) as (_&_&Henv)
  end.
  rewrite Hr in Hf, Henv |- *. cbv [final_state] in Hf. injection Hf as -> _.
  eexists. split; [reflexivity|]. split; [simpl; by rewrite Hdb|]. split.
  - cbv [final_state] in Henv. rewrite Henv. unfold viewer_dir_ok. simpl.
    rewrite Hv, Hd. simpl. by destruct (deny_sqlite_env w).
  - intros (line & H & Hp). rewrite stdout_app in H. apply elem_of_app in H as [H|H].
    + destruct (bool_decide (is_Some (db_file w))); vm_compute in H;
        elem_cases H ltac:(subst line; vm_compute in Hp; discriminate Hp).
    + unfold stdout in H. simpl in H. apply list_elem_of_omap in H as (ev&Hin&Hev).
      destruct ev; try discriminate. injection Hev as ->.
      rewrite List.Forall_forall in Hevs.
      apply list_elem_of_In in Hin. rewrite (Hevs _ Hin line eq_refl) in Hp.
      discriminate.
Qed.

Lemma refused_directory_is_fatal_witness :
  ∃ s, run scenario_denied
       = Raised (OSError "[Errno 13] Permission denied: 'db_visualizer'") s
       ∧ db_file (files s) = Some (seeded NOW (on_disk scenario_denied))
       ∧ sqlite_env (files s) = sqlite_env scenario_denied
       ∧ ¬ reports_status s.
Proof.
  apply (refused_directory_is_fatal scenario_denied).
  - seedable_by_computation.
  - apply (bool_decide_unpack _). vm_compute. exact I.
  - reflexivity.
  - reflexivity.
Defined.

Lemma report_raises_OSError dbe cn tc rc w c t e s :
  report dbe cn tc rc (State w c t) = Raised e s → ∃ msg, e = OSError msg.
Proof.
  destruct w as [cw now md f mf ct dv se [m1|] [m2|] [m3|]]; destruct dv;
    run_report; intros [= <- _] || discriminate; by eexists.
Qed.

(** X6. In every run that ends well and is not refused the file,
    db_visualizer/sqlite.env holds the text export SQLITE_DB= followed
    by the absolute path of myapp.db between double quotes and a
    newline, and the db_visualizer directory exists. *)
Theorem viewer_file_written w s :
  run w = Returned () s →
  deny_sqlite_env w = None →
  sqlite_env (files s)
  = Some ("export SQLITE_DB=" +:+ QUOTE +:+ os_path_join (cwd w) "myapp.db"
            +:+ QUOTE +:+ NL)
  ∧ db_visualizer (files s) = true.
Proof.
  rewrite run_preamble. intros Hr Hd.
  destruct (block_outcome_form (set_migrations_dir true w)
              (preamble (bool_decide (is_Some (db_file w))))) as (db&t'&Hc&_).
  destruct (block_outcome _ _) as [[[cn tc] rc] s0|e s0]; [|done].
  cbv [final_state] in Hc. subst s0. unfold closed in Hr.
  pose proof (report_returned_inv _ _ _ _ _ _ _ _ Hr) as Hv.
  match type of Hr with
  | report ?a ?b ?c ?d (State ?w0 ?c0 ?t0) = _ =>
      destruct (report_outputs a b c d w0 c0 t0) as (_&Hdir&Henv)
  end.
  rewrite Hr in Hdir, Henv. cbv [final_state] in Hdir, Henv.
  assert (Hok : viewer_dir_ok (set_db_file (Some db) (set_migrations_dir true w)) = true).
  { unfold viewer_dir_ok. destruct Hv as [-> | ->]; [done|]. by rewrite orb_true_r. }
  rewrite Hok in Hdir, Henv. simpl in Henv. rewrite Hd in Henv.
  split; [exact Henv|exact Hdir].
Qed.

Lemma viewer_file_written_witness :
  sqlite_env (files (final_state (run scenario_b)))
  = Some ("export SQLITE_DB=" +:+ QUOTE +:+ os_path_join (cwd scenario_b) "myapp.db"
            +:+ QUOTE +:+ NL)
  ∧ db_visualizer (files (final_state (run scenario_b))) = true.
Proof.
  apply (viewer_file_written scenario_b (final_state (run scenario_b)));
    vm_compute; reflexivity.
Defined.

(** *** The seed rows, exactly *)

(** A run that gets through lines 48-73 and past the migration step
    leaves the seeded database, with what the migration added. *)
Lemma after_run_seeded w :
  seedable (on_disk w) →
  past_migration w →
  ∃ d, db_file (after_run w) = Some d
       ∧ on_disk (after_run w) = d
       ∧ extends (seeded (CURRENT_TIMESTAMP w) (on_disk w)) d.
Proof.
  intros Hsd Hp. destruct (after_run_cases w) as [[_ [Hn|[Hn Hm]]]|(_&_&d&Hd&He)].
  - done.
  - destruct Hp as [?|[? Hs]]; [done|congruence].
  - exists d. split; [done|]. split; [by apply on_disk_after|done].
Qed.

(** X7. After a run in which lines 48-73 pass and that gets past the
    migration step (the notes table is there or the migration file is),
    app_info holds the rows it held under other keys, in their order,
    followed by the four seed rows in the order of the script; so a
    value stored under a seed key before the run is overwritten, and no
    key appears twice among the seed keys. *)
Theorem seed_rows_replace_and_go_last w :
  seedable (on_disk w) →
  past_migration w →
  key_values (on_disk (after_run w))
  = filter (λ p, p.1 ∉ ["project_name"; "version"; "author"; "description"])
           (key_values (on_disk w))
    ++ [ ("project_name", Some "notes_database"); ("version", Some "0.1.0");
         ("author", Some "John Doe"); ("description", Some EmptyString) ].
Proof.
  intros Hsd Hp. destruct (after_run_seeded w Hsd Hp) as (d&_&->&He).
  unfold key_values at 1. rewrite (extends_rows _ _ He).
  exact (key_values_seeded_exact (CURRENT_TIMESTAMP w) (on_disk w)).
Qed.

Lemma seed_rows_replace_and_go_last_witness :
  key_values (on_disk (after_run scenario_b))
  = filter (λ p, p.1 ∉ ["project_name"; "version"; "author"; "description"])
           (key_values (on_disk scenario_b))
    ++ [ ("project_name", Some "notes_database"); ("version", Some "0.1.0");
         ("author", Some "John Doe"); ("description", Some EmptyString) ].
Proof.
  apply (seed_rows_replace_and_go_last scenario_b).
  - seedable_by_computation.
  - left. apply (bool_decide_unpack _). vm_compute. exact I.
Defined.

(** X8. INSERT OR REPLACE does not update in place: after a run in
    which lines 48-73 pass and that gets past the migration step, each
    row under a seed key carries a rowid greater than every rowid
    app_info held before the run, so the rowids of the seed rows change
    on every such run. *)
Theorem seed_rows_get_new_rowids w r r' :
  seedable (on_disk w) →
  past_migration w →
  r ∈ rows_of (on_disk w) →
  r' ∈ rows_of (on_disk (after_run w)) →
  ai_key r' ∈ SEED.*1 →
  (ai_id r < ai_id r' ≤ MAX_ROWID)%Z.
Proof.
  intros Hsd Hp Hr Hr' Hk. destruct (after_run_seeded w Hsd Hp) as (d&_&Hd&He).
  rewrite Hd, (extends_rows _ _ He) in Hr'. unfold seeded in Hr'.
  pose proof (foldl_fresh_ids _ _ _ _ (app_info_base (on_disk w)) Hr' Hk) as Hlt.
  rewrite rows_of_base in Hlt. pose proof (max_id_ge _ _ Hr).
  split; [lia|].
  pose proof (foldl_last_id (CURRENT_TIMESTAMP w) SEED (base (on_disk w))
                (app_info_base (on_disk w))) as Hl.
  rewrite last_id_base in Hl. cbn [SEED length] in Hl.
  pose proof (max_id_ge _ _ Hr') as Hm. destruct Hsd as (_&_&Hroom).
  unfold last_id at 1 in Hl. lia.
Qed.

Lemma seed_rows_get_new_rowids_witness :
  (ai_id (AppInfoRow 2 "version" (Some "0.1.0") NOW)
   < ai_id (AppInfoRow 6 "version" (Some "0.1.0") NOW) ≤ MAX_ROWID)%Z.
Proof.
  apply (seed_rows_get_new_rowids scenario_b).
  - seedable_by_computation.
  - left. apply (bool_decide_unpack _). vm_compute. exact I.
  - apply (bool_decide_unpack _). vm_compute. exact I.
  - apply (bool_decide_unpack _). vm_compute. exact I.
  - apply (bool_decide_unpack _). vm_compute. exact I.
Defined.

(** X9. Whatever the database held at first: once a run has got past
    the migration step and left a notes table, the next run changes
    neither the catalog nor the keys and values of app_info. *)
Theorem next_run_changes_nothing w :
  past_migration w →
  "notes" ∈ table_names (on_disk (after_run w)) →
  table_names (on_disk (after_run (after_run w)))
  = table_names (on_disk (after_run w))
  ∧ key_values (on_disk (after_run (after_run w)))
    = key_values (on_disk (after_run w)).
Proof.
  intros Hp Hn.
  destruct (after_run_cases (after_run w)) as [[Hd2 _]|(Hs2&_&_)].
  { by rewrite (on_disk_after _ _ Hd2). }
  pose proof (after_run_with_notes (after_run w) Hn Hs2) as Hg.
  rewrite (on_disk_after _ _ Hg).
  destruct (after_run_past_cases w Hp) as [[Hd1 Hns]|(d1&Hd1&He1)].
  { rewrite (on_disk_after _ _ Hd1) in Hs2. done. }
  rewrite (on_disk_after _ _ Hd1).
  apply (seeded_again (CURRENT_TIMESTAMP w) (CURRENT_TIMESTAMP (after_run w))
           (on_disk w) d1 He1).
Qed.

Lemma next_run_changes_nothing_witness :
  table_names (on_disk (after_run (after_run scenario_a)))
  = table_names (on_disk (after_run scenario_a))
  ∧ key_values (on_disk (after_run (after_run scenario_a)))
    = key_values (on_disk (after_run scenario_a)).
Proof.
  apply (next_run_changes_nothing scenario_a).
  - right. vm_compute. by eexists.
  - apply (bool_decide_unpack _). vm_compute. exact I.
Defined.

Lemma count_user_tables_base d :
  is_Some (app_info d) → is_Some (users d) → is_Some (sqlite_sequence d) →
  count_user_tables d
  = 2 + length (filter (λ n, like_sqlite_ n = false) (map_to_list (tables d)).*1).
Proof.
  intros [a Ha] [u Hu] [q Hq]. unfold count_user_tables, table_names.
  rewrite Ha, Hu, Hq. cbn [name_if app].
  rewrite filter_cons_True by (vm_compute; reflexivity).
  rewrite filter_cons_True by (vm_compute; reflexivity).
  rewrite filter_cons_False by (vm_compute; discriminate).
  reflexivity.
Qed.

Lemma seeded_rows_length now d :
  length (rows_of (seeded now d))
  = length (filter (λ p, p.1 ∉ SEED.*1) (key_values d)) + 4.
Proof.
  transitivity (length (key_values (seeded now d))).
  - unfold key_values. by rewrite length_fmap.
  - rewrite key_values_seeded_exact, length_app. reflexivity.
Qed.

(** X10. In every run that ends well, the numbers of the status line
    are those of the database the run leaves on disk: the line reads
    "SQLite setup complete | DB=myapp.db | tables=T | app_info_records=R | notes_table=F"
    with T the number of tables of that database whose name is not LIKE
    'sqlite_%' (app_info, users and the migration tables of such a
    name, never sqlite_sequence), R the number of rows of its app_info
    and F created or ready. *)
Theorem status_line_counts_the_database w s :
  run w = Returned () s →
  ∃ created_notes : bool,
    status_line s
    = Some ("SQLite setup complete | DB=myapp.db | tables="
            +:+ pretty (count_user_tables (on_disk (files s)))
            +:+ " | app_info_records="
            +:+ pretty (length (rows_of (on_disk (files s))))
            +:+ " | notes_table=" +:+ (if created_notes then "created" else "ready"))
    ∧ count_user_tables (on_disk (files s))
      = 2 + length (filter (λ n, like_sqlite_ n = false)
                      (map_to_list (tables (on_disk (files s)))).*1).
Proof.
  intros Hr. destruct (run_returned_form w s Hr) as (cn&db&Hdb&He&Hst).
  assert (Hd : on_disk (files s) = db) by (unfold on_disk; by rewrite Hdb).
  rewrite Hd. exists cn. rewrite join_status_parts in Hst. split; [exact Hst|].
  destruct (seeded_present (CURRENT_TIMESTAMP w) (on_disk w)) as (Ha&Hu&Hq).
  destruct He as (Ea&Eu&Es&_).
  apply count_user_tables_base; by rewrite ?Ea, ?Eu, ?Es.
Qed.

Lemma status_line_counts_the_database_witness :
  ∃ created_notes : bool,
    status_line (final_state (run scenario_b))
    = Some ("SQLite setup complete | DB=myapp.db | tables="
            +:+ pretty (count_user_tables (on_disk (files (final_state (run scenario_b)))))
            +:+ " | app_info_records="
            +:+ pretty (length (rows_of (on_disk (files (final_state (run scenario_b))))))
            +:+ " | notes_table=" +:+ (if created_notes then "created" else "ready"))
    ∧ count_user_tables (on_disk (files (final_state (run scenario_b))))
      = 2 + length (filter (λ n, like_sqlite_ n = false)
                      (map_to_list
                         (tables (on_disk (files (final_state (run scenario_b)))))).*1).
Proof.
  apply (status_line_counts_the_database scenario_b).
  vm_compute. reflexivity.
Defined.

(** X11. Every run connects and closes the connection on every way
    out, error or not: the trace has a Close after the Connect, and
    after the Close come only the events of the auxiliary outputs, no
    statement and no script. *)
Theorem connection_is_always_closed w :
  ∃ before after,
    trace (final_state (run w)) = before ++ Close :: after
    ∧ Connect DB_NAME ∈ before
    ∧ Forall auxiliary after.
Proof.
  rewrite run_preamble.
  destruct (block_outcome_form (set_migrations_dir true w)
              (preamble (bool_decide (is_Some (db_file w))))) as (db&t'&Hc&_).
  destruct (block_outcome _ _) as [[[cn tc] rc] s0|e s0];
    cbv [final_state] in Hc; subst s0; unfold closed.
  - match goal with
    | |- context [report ?a ?b ?c ?d (State ?w0 ?c0 ?t0)] =>
        destruct (report_frame a b c d w0 c0 t0) as (w'&evs&->&_&Haux)
    end.
    eexists _, evs. split; [|split; [|exact Haux]].
    + cbv [trace]. rewrite <- (assoc_L (++)). reflexivity.
    + apply elem_of_app. right. left.
  - eexists _, []. split; [reflexivity|]. split; [|constructor].
    apply elem_of_app. right. left.
Qed.

(** X12. The auxiliary outputs come after the database: a run that ends
    on an error of the database or of the migration file has written
    neither db_connection.txt nor db_visualizer/sqlite.env and has not
    made the db_visualizer directory. *)
Theorem database_error_writes_no_file w e s :
  run w = Raised e s →
  (∀ msg, e ≠ OSError msg) →
  db_connection_txt (files s) = db_connection_txt w
  ∧ sqlite_env (files s) = sqlite_env w
  ∧ db_visualizer (files s) = db_visualizer w
  ∧ (∀ path mode, Open path mode ∈ trace s → path = NOTES_MIGRATION_FILE).
Proof.
  intros Hr He.
  destruct (run_cases w) as [[Hsd _]|(_&msg&_&Hf)].
  2:{ rewrite Hf in Hr. injection Hr as <- <-. repeat split; try done.
      intros path mode H.
      by destruct (proj1 (proj2 (proj2 (proj2
                    (early_trace_facts w (Connection None false))))) path mode). }
  rewrite (run_seedable w Hsd) in Hr.
  destruct (block_after_seed (set_migrations_dir true w) _ _)
    as [[[cn tc] rc] s0|e0 s0] eqn:Hb.
  { destruct s0 as [w0 c0 t0].
    destruct (report_raises_OSError _ _ _ _ _ _ _ _ _ Hr) as [msg ->].
    by destruct (He msg). }
  injection Hr as -> ->. revert Hb.
  unfold block_after_seed, counted. cbv zeta.
  destruct (select_notes _); [done|].
  destruct (migration_file _) as [script|].
  2:{ intros [= <- <-]. repeat split; try done.
      intros path mode H. destruct (bool_decide (is_Some (db_file w)));
        cbv [closed trace preamble seed_events app] in H;
        elem_cases H ltac:(by injection H as -> _ || discriminate H). }
  destruct (exec_script script _) as [e1 [msg|]].
  { intros [= <- <-]. repeat split; try done.
    intros path mode H. destruct (bool_decide (is_Some (db_file w)));
      cbv [closed trace preamble seed_events app] in H;
      elem_cases H ltac:(by injection H as -> _ || discriminate H). }
  destruct (pending e1.2); [done|].
  intros [= <- <-]. repeat split; try done.
  intros path mode H. destruct (bool_decide (is_Some (db_file w)));
    cbv [closed trace preamble seed_events app] in H;
    elem_cases H ltac:(by injection H as -> _ || discriminate H).
Qed.

Lemma database_error_writes_no_file_witness :
  db_connection_txt (files (final_state (run scenario_c))) = db_connection_txt scenario_c
  ∧ sqlite_env (files (final_state (run scenario_c))) = sqlite_env scenario_c
  ∧ db_visualizer (files (final_state (run scenario_c))) = db_visualizer scenario_c
  ∧ (∀ path mode, Open path mode ∈ trace (final_state (run scenario_c)) →
       path = NOTES_MIGRATION_FILE).
Proof.
  apply (database_error_writes_no_file scenario_c
           (FileNotFoundError
              "Required migration not found: migrations/001_create_notes.sql")).
  - vm_compute. reflexivity.
  - intros msg. discriminate.
Defined.

(** X1. When lines 48-73 pass, the notes table is missing and the
    migration script opens no transaction and runs without error, the
    COMMIT of line 95 raises OperationalError, since [executescript] has
    committed the transaction of line 45 already: the run ends on that
    error without a status line, although everything, the script's
    tables included, is on disk. *)
Theorem commit_without_transaction_raises w script :
  seedable (on_disk w) →
  "notes" ∉ table_names (on_disk w) →
  migration_file w = Some script →
  BEGIN ∉ script →
  (exec_script script (seeded (CURRENT_TIMESTAMP w) (on_disk w),
                       Connection None true)).2 = None →
  ∃ s, run w = Raised (OperationalError "cannot commit - no transaction is active") s
       ∧ last (removelast (trace s)) = Some (Execute SQL_COMMIT)
       ∧ ¬ reports_status s
       ∧ db_file (files s)
         = Some (exec_script script (seeded (CURRENT_TIMESTAMP w) (on_disk w),
                                     Connection None true)).1.1
       ∧ seed_ok (on_disk (files s)).
Proof.
  intros Hsd Hn Hm Hb Hok. to_script w Hsd Hn Hm.
  pose proof (exec_script_idle script
                (seeded (CURRENT_TIMESTAMP w) (on_disk w), Connection None true)
                Hb eq_refl) as Hp.
  pose proof (exec_script_grows script _ _
                (grows_from_start (seeded (CURRENT_TIMESTAMP w) (on_disk w)) true))
    as [Hg _].
  destruct (exec_script script _) as [e r]. simpl in Hok, Hp, Hg. subst r.
  rewrite Hp. eexists. split; [reflexivity|].
  split; [|split; [|split; [reflexivity|]]].
  - unfold closed. cbv [trace]. rewrite removelast_last. apply last_snoc.
  - destruct (bool_decide (is_Some (db_file w)));
      intros (line & H & Hl); vm_compute in H;
      elem_cases H ltac:(subst line; vm_compute in Hl; discriminate Hl).
  - eapply seed_ok_extends; [exact Hg|apply seeded_seed_ok].
Qed.

Lemma commit_without_transaction_raises_witness :
  ∃ s, run scenario_a
       = Raised (OperationalError "cannot commit - no transaction is active") s
       ∧ last (removelast (trace s)) = Some (Execute SQL_COMMIT)
       ∧ ¬ reports_status s
       ∧ db_file (files s)
         = Some (exec_script [CREATE_TABLE false "notes" ["id"; "title"; "body"]]
                   (seeded NOW empty_database, Connection None true)).1.1
       ∧ seed_ok (on_disk (files s)).
Proof.
  apply (commit_without_transaction_raises scenario_a
           [CREATE_TABLE false "notes" ["id"; "title"; "body"]]).
  - seedable_by_computation.
  - apply (bool_decide_unpack _). vm_compute. exact I.
  - reflexivity.
  - apply (bool_decide_unpack _). vm_compute. exact I.
  - vm_compute. reflexivity.
Defined.

(** X14. Whenever lines 48-73 pass, the notes table is missing at the
    check and the migration file is there, the run executes the script,
    whether it was executed before or not. *)
Theorem script_executed_when_notes_missing w script :
  seedable (on_disk w) →
  "notes" ∉ table_names (on_disk w) →
  migration_file w = Some script →
  Executescript script ∈ trace (final_state (run w)).
Proof.
  intros Hsd Hn Hm. to_script w Hsd Hn Hm.
  destruct (exec_script script _) as [e [msg|]].
  { cbv [final_state closed trace]. rewrite !elem_of_app. left. right. set_solver. }
  destruct (pending e.2).
  - match goal with
    | |- context [report ?dbe ?cn ?tc ?rc (closed ?w0 ?db ?t)] =>
        destruct (report_frame dbe cn tc rc (set_db_file (Some db) w0)
                    (Connection None false) (t ++ [Close])) as (w'&evs&Hf&_)
    end.
    unfold closed. rewrite Hf. cbv [trace]. rewrite !elem_of_app.
    left. left. left. right. set_solver.
  - cbv [final_state closed trace]. rewrite !elem_of_app. left. left. right. set_solver.
Qed.

Lemma script_executed_when_notes_missing_witness :
  Executescript [CREATE_TABLE true "memos" ["id"; "text"]]
  ∈ trace (final_state (run (after_run scenario_memos))).
Proof.
  apply (script_executed_when_notes_missing (after_run scenario_memos)).
  - seedable_by_computation.
  - apply (bool_decide_unpack _). vm_compute. exact I.
  - vm_compute. reflexivity.
Defined.

(** X13. Lines 42-73 on every database. When no index bears the name
    of a base table still to be made and app_info has four rowids left,
    the run connects, switches foreign keys on outside any transaction,
    begins, creates the two tables if they are missing, writes the four
    seed rows and reaches the lookup of the notes table, in this order.
    Otherwise one of the statements of lines 48-73 fails, with "there is
    already an index named app_info" or "... users" or with "database or
    disk is full": the run ends there on OperationalError, the file is
    as it was, and the run has neither looked up the notes table nor
    opened a file nor executed a script or COMMIT nor printed a status
    line. *)
Theorem schema_and_seed_pass_or_fail w :
  (seedable (on_disk w) →
   ∃ rest,
     trace (final_state (run w))
     = preamble (bool_decide (is_Some (db_file w)))
       ++ [ Connect DB_NAME;
            Execute PRAGMA_foreign_keys_ON; Execute SQL_BEGIN;
            Execute CREATE_app_info; Execute CREATE_users;
            Execute (INSERT_OR_REPLACE "project_name" "notes_database");
            Execute (INSERT_OR_REPLACE "version" "0.1.0");
            Execute (INSERT_OR_REPLACE "author" "John Doe");
            Execute (INSERT_OR_REPLACE "description" EmptyString);
            Execute SELECT_notes ]
       ++ rest)
  ∧ (¬ seedable (on_disk w) →
     ∃ msg s,
       run w = Raised (OperationalError msg) s
       ∧ (msg = "there is already an index named app_info"
          ∨ msg = "there is already an index named users"
          ∨ msg = "database or disk is full")
       ∧ db_file (files s) = Some (on_disk w)
       ∧ take 6 (trace s)
         = preamble (bool_decide (is_Some (db_file w)))
           ++ [Connect DB_NAME; Execute PRAGMA_foreign_keys_ON; Execute SQL_BEGIN]
       ∧ last (trace s) = Some Close
       ∧ (Execute SELECT_notes ∉ trace s)
       ∧ (Execute SQL_COMMIT ∉ trace s)
       ∧ (∀ script, Executescript script ∉ trace s)
       ∧ (∀ path mode, Open path mode ∉ trace s)
       ∧ ¬ reports_status s).
Proof.
  split.
  - intros Hsd. rewrite (run_seedable w Hsd).
    assert (Hb : ∃ db rest,
      final_state (block_after_seed (set_migrations_dir true w)
                     (seeded (CURRENT_TIMESTAMP w) (on_disk w))
                     (preamble (bool_decide (is_Some (db_file w)))))
      = State (set_db_file (Some db) (set_migrations_dir true w))
              (Connection None false)
              (preamble (bool_decide (is_Some (db_file w)))
               ++ (Connect DB_NAME :: seed_events ++ [Execute SELECT_notes]) ++ rest)).
    { unfold block_after_seed, counted, closed. cbv zeta.
      destruct (select_notes _).
      { eexists _, _. simpl. rewrite <- ?(assoc_L (++)). reflexivity. }
      destruct (migration_file _) as [script|].
      2:{ eexists _, _. simpl. rewrite <- ?(assoc_L (++)). reflexivity. }
      destruct (exec_script script _) as [e [msg|]].
      { eexists _, _. simpl. rewrite <- ?(assoc_L (++)). reflexivity. }
      destruct (pending e.2); eexists _, _; simpl;
        rewrite <- ?(assoc_L (++)); reflexivity. }
    destruct Hb as (db&rest&Hb).
    destruct (block_after_seed _ _ _) as [[[cn tc] rc] s0|e s0];
      cbv [final_state] in Hb; subst s0.
    + match goal with
      | |- context [report ?a ?b ?c ?d (State ?w0 ?c0 ?t0)] =>
          destruct (report_frame a b c d w0 c0 t0) as (w'&evs&->&_)
      end.
      exists (rest ++ evs). cbv [trace]. by rewrite <- ?(assoc_L (++)).
    + exists rest. reflexivity.
  - intros Hns.
    destruct (prepared_cases (CURRENT_TIMESTAMP w) (on_disk w))
      as [(Hsd&_)|(_&msg&Hp&Hmsg)]; [done|].
    rewrite (run_prepared_inr w msg Hp). eexists msg, _. split; [reflexivity|].
    split; [by apply setup_messages_cases|].
    destruct (early_trace_facts w (Connection None false)) as (H1&H2&H3&H4&H5).
    split; [reflexivity|]. split; [reflexivity|].
    split; [cbn [trace]; unfold early_trace; apply last_snoc|].
    by repeat split.
Qed.

Lemma schema_and_seed_pass_or_fail_witness :
  (∃ rest,
     trace (final_state (run scenario_a))
     = preamble false
       ++ [ Connect DB_NAME;
            Execute PRAGMA_foreign_keys_ON; Execute SQL_BEGIN;
            Execute CREATE_app_info; Execute CREATE_users;
            Execute (INSERT_OR_REPLACE "project_name" "notes_database");
            Execute (INSERT_OR_REPLACE "version" "0.1.0");
            Execute (INSERT_OR_REPLACE "author" "John Doe");
            Execute (INSERT_OR_REPLACE "description" EmptyString);
            Execute SELECT_notes ]
       ++ rest)
  ∧ (∃ msg s,
       run scenario_full = Raised (OperationalError msg) s
       ∧ (msg = "there is already an index named app_info"
          ∨ msg = "there is already an index named users"
          ∨ msg = "database or disk is full")
       ∧ db_file (files s) = Some (on_disk scenario_full)
       ∧ take 6 (trace s)
         = preamble true
           ++ [Connect DB_NAME; Execute PRAGMA_foreign_keys_ON; Execute SQL_BEGIN]
       ∧ last (trace s) = Some Close
       ∧ (Execute SELECT_notes ∉ trace s)
       ∧ (Execute SQL_COMMIT ∉ trace s)
       ∧ (∀ script, Executescript script ∉ trace s)
       ∧ (∀ path mode, Open path mode ∉ trace s)
       ∧ ¬ reports_status s).
Proof.
  split.
  - apply (proj1 (schema_and_seed_pass_or_fail scenario_a)).
    seedable_by_computation.
  - apply (proj2 (schema_and_seed_pass_or_fail scenario_full)).
    intros (_&_&H). vm_compute in H. discriminate H.
Defined.

(** X15. A migration that fails after it has created the notes table
    outside any transaction of its own, so that the table is on the file
    when the connection closes, is never resumed: the next run finds
    notes in the catalog, executes no script, and leaves the migration
    tables and the indexes as the failed run left them. *)
Theorem half_applied_migration_is_never_resumed w script msg :
  seedable (on_disk w) →
  "notes" ∉ table_names (on_disk w) →
  migration_file w = Some script →
  (exec_script script (seeded (CURRENT_TIMESTAMP w) (on_disk w),
                       Connection None true)).2 = Some msg →
  "notes" ∈ table_names
              (exec_script script (seeded (CURRENT_TIMESTAMP w) (on_disk w),
                                   Connection None true)).1.1 →
  "notes" ∈ table_names (on_disk (after_run w))
  ∧ tables (on_disk (after_run (after_run w))) = tables (on_disk (after_run w))
  ∧ indexes (on_disk (after_run (after_run w))) = indexes (on_disk (after_run w))
  ∧ (∀ sc, Executescript sc ∉ trace (final_state (run (after_run w)))).
Proof.
  intros Hsd Hn Hm Hf Hnotes.
  assert (H1 : on_disk (after_run w)
               = (exec_script script (seeded (CURRENT_TIMESTAMP w) (on_disk w),
                                      Connection None true)).1.1).
  { unfold after_run. revert Hnotes Hf. to_script w Hsd Hn Hm.
    destruct (exec_script script _) as [e r]. simpl. intros _ ->. reflexivity. }
  rewrite <- H1 in Hnotes. clear Hsd Hn Hm Hf H1. split; [exact Hnotes|].
  generalize dependent (after_run w). clear w. intros w Hn.
  destruct (run_cases w) as [[Hsd _]|(_&m&_&Hr)].
  2:{ unfold after_run. rewrite Hr. split; [reflexivity|]. split; [reflexivity|].
      intros sc. cbn [final_state].
      apply (proj1 (proj2 (proj2 (early_trace_facts w (Connection None false))))). }
  pose proof (after_run_with_notes w Hn Hsd) as Hg.
  rewrite (on_disk_after _ _ Hg).
  destruct (seeded_frame (CURRENT_TIMESTAMP w) (on_disk w)) as (_&Et&Ei).
  split; [exact Et|]. split; [exact Ei|].
  intros sc. to_ready w Hsd Hn.
  match goal with
  | |- context [report ?a ?b ?c ?d (State ?w0 ?c0 ?t0)] =>
      destruct (report_frame a b c d w0 c0 t0) as (w'&evs&->&_&Haux)
  end.
  cbv [final_state trace preamble seed_events count_events app]. intros H.
  destruct (bool_decide (is_Some (db_file w)));
    repeat (apply elem_of_cons in H as [H|H]; [discriminate H|]);
    rewrite List.Forall_forall in Haux;
    apply list_elem_of_In, Haux in H; exact H.
Qed.

Lemma half_applied_migration_is_never_resumed_witness :
  "notes" ∈ table_names (on_disk (after_run scenario_broken))
  ∧ tables (on_disk (after_run (after_run scenario_broken)))
    = tables (on_disk (after_run scenario_broken))
  ∧ indexes (on_disk (after_run (after_run scenario_broken)))
    = indexes (on_disk (after_run scenario_broken))
  ∧ (∀ sc, Executescript sc ∉ trace (final_state (run (after_run scenario_broken)))).
Proof.
  apply (half_applied_migration_is_never_resumed scenario_broken
           [ CREATE_TABLE false "notes" ["id"; "title"; "body"];
             Unparsable (syntax_error_near "INDX") ]
           (syntax_error_near "INDX")).
  - seedable_by_computation.
  - apply (bool_decide_unpack _). vm_compute. exact I.
  - reflexivity.
  - vm_compute. reflexivity.
  - apply (bool_decide_unpack _). vm_compute. exact I.
Defined.
